(** * ask-world: the Walrus upload route and the audio recorder component

  A shallow embedding of the two pieces of application code of the
  repository:

  - [src/app/api/upload-walrus/route.ts], the server route [POST];
  - [src/components/AudioRecorder.tsx], the React component with its
    handlers [startRecording], [stopRecording] and [handleUpload].

  JavaScript values are modelled as far as the code observes them, thrown
  exceptions as an error monad, React state as a record threaded through
  the handlers, and calls to the outside world (the storage client, the
  network, the media API) as parameters whose answers the handlers
  receive. *)

From Stdlib Require Import String Ascii List Bool ZArith NArith Lia.
From Stdlib Require Import DecimalString.
Import ListNotations.

Open Scope string_scope.

Local Set Warnings "-register-all".

(** ** JavaScript values *)

Module Js.

(** A number is observed by this code only through [ToBoolean] (in [&&]
    and [||]) and [ToString] (in [+] and template literals); the model
    carries these two observations of the double. *)
Record number := { num_truthy : bool; num_text : string }.

(** The values [JSON.parse] produces; an object is the list of its own
    properties. *)
Inductive json :=
| JNull
| JBool (b : bool)
| JNum (n : number)
| JStr (s : string)
| JArr (items : list json)
| JObj (fields : list (string * json)).

(** A value read from a property: [None] is [undefined]. *)
Definition value := option json.

(** ToBoolean. *)
Definition truthy (v : value) : bool :=
  match v with
  | None => false
  | Some JNull => false
  | Some (JBool b) => b
  | Some (JNum n) => num_truthy n
  | Some (JStr s) => negb (String.eqb s "")
  | Some (JArr _) => true
  | Some (JObj _) => true
  end.

(** ToString on parsed JSON: an array is joined with commas, with [null]
    elements printed as the empty string; a plain object prints as
    "[object Object]". *)
Fixpoint json_to_string (v : json) : string :=
  match v with
  | JNull => "null"
  | JBool b => if b then "true" else "false"
  | JNum n => num_text n
  | JStr s => s
  | JArr items =>
      (fix join (l : list json) : string :=
         match l with
         | [] => ""
         | x :: r =>
             (match x with JNull => "" | _ => json_to_string x end)
               ++ match r with [] => "" | _ => "," ++ join r end
         end) items
  | JObj _ => "[object Object]"
  end.

Definition to_string (v : value) : string :=
  match v with
  | None => "undefined"
  | Some j => json_to_string j
  end.

(** [a || b]. *)
Definition or_else (a b : value) : value := if truthy a then a else b.

(** A thrown value, observed through [(error as Error).message] in a
    string concatenation. *)
Record thrown := { message : string }.

(** The outcome of evaluating an expression or awaiting a promise. *)
Inductive completion (A : Type) :=
| Normal (a : A)
| Throw (e : thrown).
Arguments Normal {A} a.
Arguments Throw {A} e.

Fixpoint assoc {A : Type} (k : string) (l : list (string * A)) : option A :=
  match l with
  | [] => None
  | (k', v) :: r => if String.eqb k k' then Some v else assoc k r
  end.

(** The text of the TypeError the engine raises for [null.prop]. *)
Definition null_property_error (prop : string) : thrown :=
  {| message := "Cannot read properties of null (reading '" ++ prop ++ "')" |}.

(** [v.prop] for a parsed JSON value [v] and one of the property names
    the code reads ([success], [blobId], [error]): reading from [null]
    throws, a primitive or an array has no such property. *)
Definition get_prop (v : json) (prop : string) : completion value :=
  match v with
  | JNull => Throw (null_property_error prop)
  | JObj fields => Normal (assoc prop fields)
  | _ => Normal None
  end.

(** [String.prototype.includes]. *)
Definition includes (s sub : string) : Prop :=
  exists pre post, s = pre ++ sub ++ post.

(** Decimal text of a non-negative integer, as a template literal prints
    [Date.now()]. *)
Definition dec (n : N) : string := NilEmpty.string_of_uint (N.to_uint n).

End Js.

Import Js.

(** A [Blob]: its bytes and its MIME type. *)
Record Blob := { blob_bytes : list Byte.byte; blob_type : string }.

(** An entry of a multipart form: a file (a [Blob] with a file name) or a
    plain string. *)
Inductive FormDataEntryValue :=
| EntryFile (b : Blob) (filename : string)
| EntryString (s : string).

Definition FormData := list (string * FormDataEntryValue).

(** [formData.get(name)]: the first entry of that name, [None] for [null]. *)
Definition formData_get (name : string) (fd : FormData) : option FormDataEntryValue :=
  assoc name fd.

(** [formData.append(name, blob, filename)]. *)
Definition formData_append (fd : FormData) (name : string) (b : Blob) (filename : string)
  : FormData :=
  (fd ++ [(name, EntryFile b filename)])%list.

(** ** The server route [POST] of upload-walrus/route.ts *)

Module Route.

Record NextRequest := { formData : completion FormData }.

(** [NextResponse.json(body, { status })]: the keys of the body in the order
    of the object literal. *)
Record NextResponse := { status : Z; body : list (string * json) }.

Definition json_response (b : list (string * json)) : NextResponse :=
  {| status := 200; body := b |}.

Definition has_field (k : string) (r : NextResponse) : bool :=
  match assoc k (body r) with Some _ => true | None => false end.

Definition fields (r : NextResponse) : list string := map fst (body r).

Record SuiClientOptions := { url : string; network : string }.
Record WalrusOptions := { fanOut_host : string; sendTip_max : Z }.

Record WriteBlobArgs (Keypair : Type) :=
  { blob : list Byte.byte; deletable : bool; epochs : Z; signer : Keypair }.
Arguments blob {Keypair} _.
Arguments deletable {Keypair} _.
Arguments epochs {Keypair} _.
Arguments signer {Keypair} _.

(** The parts of @mysten/sui and @mysten/walrus the route calls: the types
    of key pairs and clients, and the functions, each of which may throw. *)
Record Libraries :=
  { Keypair : Type;
    Client : Type;
    getFullnodeUrl : string -> completion string;
    newClient : SuiClientOptions -> WalrusOptions -> completion Client;
    fromB64 : string -> completion (list Byte.byte);
    fromSecretKey : list Byte.byte -> completion Keypair;
    writeBlob : Client -> WriteBlobArgs Keypair -> completion string }.

Definition privateKey : string := "cixQDTswNJCcWkigndtmaqU23Myv+dU8x1+/YCkofXk=".

(** [!audioBlob] on the value of [formData.get("audio")]: true for [null]
    and for the empty string. *)
Definition entry_falsy (e : option FormDataEntryValue) : bool :=
  match e with
  | None => true
  | Some (EntryString s) => String.eqb s ""
  | Some (EntryFile _ _) => false
  end.

Definition not_a_function : thrown :=
  {| message := "audioBlob.arrayBuffer is not a function" |}.

(** [new Uint8Array(await audioBlob.arrayBuffer())]: the bytes of the blob;
    a string entry has no [arrayBuffer] method. *)
Definition arrayBuffer (e : option FormDataEntryValue) : completion (list Byte.byte) :=
  match e with
  | Some (EntryFile b _) => Normal (blob_bytes b)
  | Some (EntryString _) => Throw not_a_function
  | None => Throw (null_property_error "arrayBuffer")
  end.

(** What the route does to the outside: the storage call with its arguments
    and its outcome, and the console lines. *)
Inductive Event (K : Type) :=
| EWriteBlob (args : WriteBlobArgs K) (outcome : completion string)
| EConsoleLog (text : string) (blobId : string)
| EConsoleError (text : string) (error : thrown).
Arguments EWriteBlob {K} args outcome.
Arguments EConsoleLog {K} text blobId.
Arguments EConsoleError {K} text error.

(** The route runs in an error monad that records the events. *)
Definition M (K A : Type) : Type := (list (Event K) * completion A)%type.

Definition ret {K A} (a : A) : M K A := ([], Normal a).

Definition bind {K A B} (m : M K A) (f : A -> M K B) : M K B :=
  match m with
  | (l, Normal a) => let '(l', r) := f a in ((l ++ l')%list, r)
  | (l, Throw e) => (l, Throw e)
  end.

Definition lift {K A} (c : completion A) : M K A := ([], c).

Definition emit {K} (ev : Event K) : M K unit := ([ev], Normal tt).

(** [try { body } catch (error) { handler }]. *)
Definition try_catch {K A} (m : M K A) (handler : thrown -> M K A) : M K A :=
  match m with
  | (l, Normal a) => (l, Normal a)
  | (l, Throw e) => let '(l', r) := handler e in ((l ++ l')%list, r)
  end.

Notation "x <- m ;; k" := (bind m (fun x => k))
  (at level 61, m at next level, right associativity).
Notation "m ;;; k" := (bind m (fun _ => k))
  (at level 61, right associativity).

Definition call_writeBlob (L : Libraries) (c : Client L) (args : WriteBlobArgs (Keypair L))
  : M (Keypair L) string :=
  let o := writeBlob L c args in ([EWriteBlob args o], o).

Definition POST_try (L : Libraries) (request : NextRequest) : M (Keypair L) NextResponse :=
  fd <- lift (formData request) ;;
  let audioBlob := formData_get "audio" fd in
  if entry_falsy audioBlob then
    ret {| status := 400; body := [("error", JStr "No audio blob provided")] |}
  else
    uint8Array <- lift (arrayBuffer audioBlob) ;;
    nodeUrl <- lift (getFullnodeUrl L "testnet") ;;
    suiClient <- lift (newClient L
                         {| url := nodeUrl; network := "testnet" |}
                         {| fanOut_host := "https://fan-out.testnet.walrus.space";
                            sendTip_max := 1000 |}) ;;
    secret <- lift (fromB64 L privateKey) ;;
    keypair <- lift (fromSecretKey L secret) ;;
    blobId <- call_writeBlob L suiClient
                {| blob := uint8Array; deletable := false; epochs := 3;
                   signer := keypair |} ;;
    emit (EConsoleLog "Audio uploaded to Walrus with blobId:" blobId) ;;;
    ret (json_response
           [("success", JBool true);
            ("blobId", JStr blobId);
            ("message", JStr "Audio uploaded successfully to Walrus")]).

Definition POST_catch (L : Libraries) (error : thrown) : M (Keypair L) NextResponse :=
  emit (EConsoleError "Error uploading to Walrus:" error) ;;;
  ret {| status := 500;
         body := [("error", JStr ("Failed to upload to Walrus: " ++ message error))] |}.

Definition POST_M (L : Libraries) (request : NextRequest) : M (Keypair L) NextResponse :=
  try_catch (POST_try L request) (POST_catch L).

(** The events of a run of [POST]. *)
Definition events (L : Libraries) (request : NextRequest) : list (Event (Keypair L)) :=
  fst (POST_M L request).

(** The response of [POST]; [None] would be an exception leaving the
    handler. *)
Definition POST (L : Libraries) (request : NextRequest) : option NextResponse :=
  match snd (POST_M L request) with
  | Normal r => Some r
  | Throw _ => None
  end.

(** The arguments of the [writeBlob] calls made. *)
Fixpoint writeBlob_calls {K} (l : list (Event K)) : list (WriteBlobArgs K) :=
  match l with
  | [] => []
  | EWriteBlob args _ :: r => args :: writeBlob_calls r
  | _ :: r => writeBlob_calls r
  end.

(** The upload succeeded: a [writeBlob] call completed normally. *)
Definition upload_succeeded {K} (l : list (Event K)) : bool :=
  existsb (fun ev => match ev with
                     | EWriteBlob _ (Normal _) => true
                     | _ => false
                     end) l.

(** The exceptions the route caught. *)
Fixpoint caught {K} (l : list (Event K)) : list thrown :=
  match l with
  | [] => []
  | EConsoleError _ e :: r => e :: caught r
  | _ :: r => caught r
  end.

(** The three bodies the route sends. *)
Definition missing_audio_response : NextResponse :=
  {| status := 400; body := [("error", JStr "No audio blob provided")] |}.

Definition success_response (blobId : string) : NextResponse :=
  json_response
    [("success", JBool true);
     ("blobId", JStr blobId);
     ("message", JStr "Audio uploaded successfully to Walrus")].

Definition failure_response (error : thrown) : NextResponse :=
  {| status := 500;
     body := [("error", JStr ("Failed to upload to Walrus: " ++ message error))] |}.

(** The route got as far as [writeBlob] with [args]: the form holds a file
    under "audio", whose bytes are in [args], next to the constants and the
    key pair made from [privateKey]. *)
Definition Prepared (L : Libraries) (request : NextRequest) (args : WriteBlobArgs (Keypair L))
  : Prop :=
  exists fd b name raw,
    formData request = Normal fd /\
    formData_get "audio" fd = Some (EntryFile b name) /\
    fromB64 L privateKey = Normal raw /\
    fromSecretKey L raw = Normal (signer args) /\
    args = {| blob := blob_bytes b; deletable := false; epochs := 3;
              signer := signer args |}.

(** The runs of the route, by the branch taken. *)
Inductive Run (L : Libraries) (request : NextRequest)
  : M (Keypair L) NextResponse -> Prop :=
| RunMissingAudio fd :
    formData request = Normal fd ->
    entry_falsy (formData_get "audio" fd) = true ->
    Run L request ([], Normal missing_audio_response)
| RunUploaded args blobId :
    Prepared L request args ->
    Run L request
      ([EWriteBlob args (Normal blobId);
        EConsoleLog "Audio uploaded to Walrus with blobId:" blobId],
       Normal (success_response blobId))
| RunWriteFailed args e :
    Prepared L request args ->
    Run L request
      ([EWriteBlob args (Throw e); EConsoleError "Error uploading to Walrus:" e],
       Normal (failure_response e))
| RunFailedBefore e :
    (formData request = Throw e \/
     exists fd, formData request = Normal fd /\
                entry_falsy (formData_get "audio" fd) = false) ->
    Run L request
      ([EConsoleError "Error uploading to Walrus:" e], Normal (failure_response e)).

Definition response_fields (L : Libraries) (request : NextRequest) : option (list string) :=
  option_map fields (POST L request).

(** Libraries in which every call returns, and requests to try the route
    on. *)
Definition ok_libraries : Libraries :=
  {| Keypair := list Byte.byte;
     Client := string;
     getFullnodeUrl := fun net => Normal ("https://fullnode." ++ net ++ ".sui.io:443");
     newClient := fun o _ => Normal (url o);
     fromB64 := fun _ => Normal [Byte.x72; Byte.x2c];
     fromSecretKey := fun raw => Normal raw;
     writeBlob := fun _ args => Normal ("blob-" ++ dec (N.of_nat (length (blob args)))) |}.

Definition sample_blob : Blob :=
  {| blob_bytes := [Byte.x1a; Byte.x45; Byte.xdf; Byte.xa3]; blob_type := "audio/webm" |}.

Definition sample_request : NextRequest :=
  {| formData := Normal [("audio", EntryFile sample_blob "recording-1700000000000.webm")] |}.

Definition empty_request : NextRequest := {| formData := Normal [] |}.

(** A library call of the [try] block throws [e] on the bytes [bytes]: the
    library calls before it return, in the order of the source. *)
Inductive LibraryThrows (L : Libraries) (bytes : list Byte.byte) (e : thrown) : Prop :=
| ThrowsGetFullnodeUrl :
    getFullnodeUrl L "testnet" = Throw e ->
    LibraryThrows L bytes e
| ThrowsNewClient nodeUrl :
    getFullnodeUrl L "testnet" = Normal nodeUrl ->
    newClient L {| url := nodeUrl; network := "testnet" |}
      {| fanOut_host := "https://fan-out.testnet.walrus.space"; sendTip_max := 1000 |}
    = Throw e ->
    LibraryThrows L bytes e
| ThrowsFromB64 nodeUrl suiClient :
    getFullnodeUrl L "testnet" = Normal nodeUrl ->
    newClient L {| url := nodeUrl; network := "testnet" |}
      {| fanOut_host := "https://fan-out.testnet.walrus.space"; sendTip_max := 1000 |}
    = Normal suiClient ->
    fromB64 L privateKey = Throw e ->
    LibraryThrows L bytes e
| ThrowsFromSecretKey nodeUrl suiClient secret :
    getFullnodeUrl L "testnet" = Normal nodeUrl ->
    newClient L {| url := nodeUrl; network := "testnet" |}
      {| fanOut_host := "https://fan-out.testnet.walrus.space"; sendTip_max := 1000 |}
    = Normal suiClient ->
    fromB64 L privateKey = Normal secret ->
    fromSecretKey L secret = Throw e ->
    LibraryThrows L bytes e
| ThrowsWriteBlob nodeUrl suiClient secret keypair :
    getFullnodeUrl L "testnet" = Normal nodeUrl ->
    newClient L {| url := nodeUrl; network := "testnet" |}
      {| fanOut_host := "https://fan-out.testnet.walrus.space"; sendTip_max := 1000 |}
    = Normal suiClient ->
    fromB64 L privateKey = Normal secret ->
    fromSecretKey L secret = Normal keypair ->
    writeBlob L suiClient
      {| blob := bytes; deletable := false; epochs := 3; signer := keypair |}
    = Throw e ->
    LibraryThrows L bytes e.

(** The [try] block of the route throws [e]: it is thrown by
    [request.formData()], or by [audioBlob.arrayBuffer()] on an audio entry
    that passed the check, or by a library call after both returned. *)
Inductive Raised (L : Libraries) (request : NextRequest) (e : thrown) : Prop :=
| RaisedByFormData :
    formData request = Throw e ->
    Raised L request e
| RaisedByArrayBuffer fd :
    formData request = Normal fd ->
    entry_falsy (formData_get "audio" fd) = false ->
    arrayBuffer (formData_get "audio" fd) = Throw e ->
    Raised L request e
| RaisedByLibrary fd bytes :
    formData request = Normal fd ->
    entry_falsy (formData_get "audio" fd) = false ->
    arrayBuffer (formData_get "audio" fd) = Normal bytes ->
    LibraryThrows L bytes e ->
    Raised L request e.

(** Libraries whose storage call throws. *)
Definition throwing_libraries : Libraries :=
  {| Keypair := list Byte.byte;
     Client := string;
     getFullnodeUrl := fun net => Normal ("https://fullnode." ++ net ++ ".sui.io:443");
     newClient := fun o _ => Normal (url o);
     fromB64 := fun _ => Normal [Byte.x72; Byte.x2c];
     fromSecretKey := fun raw => Normal raw;
     writeBlob := fun _ _ => Throw {| message := "could not reach the storage nodes" |} |}.

End Route.

(** ** The component of AudioRecorder.tsx *)

Module AudioRecorder.

Inductive ToastType := ToastSuccess | ToastError.

(** The [useState] cells of the component.  [blobId] is declared
    [string | null] but receives [result.blobId] of the parsed response,
    which can be any value. *)
Record State :=
  { isRecording : bool;
    audioBlob : option Blob;
    uploading : bool;
    uploadStatus : string;
    showToast : bool;
    toastType : ToastType;
    blobId : value }.

Inductive RecordingState := Inactive | Recording.

(** The [MediaRecorder] held by [mediaRecorderRef]: its state and the
    [mimeType] its [onstop] closure captured. *)
Record MediaRecorder := { mimeType : string; rec_state : RecordingState }.

Record HttpRequest := { req_url : string; req_method : string; req_body : FormData }.

(** What [fetch] resolves to: [response.ok] and the outcome of
    [response.json()]. *)
Record Response := { ok : bool; json_body : completion json }.

(** The page: the state cells, the two refs, the requests issued so far and
    how many of them have settled, and the [onstop] tasks the recorders have
    queued (each with the MIME type of its closure). *)
Record Page :=
  { state : State;
    mediaRecorderRef : option MediaRecorder;
    audioChunksRef : list Blob;
    requests : list HttpRequest;
    settled : nat;
    stop_tasks : list string }.

Definition initial_state : State :=
  {| isRecording := false; audioBlob := None; uploading := false;
     uploadStatus := ""; showToast := false; toastType := ToastSuccess;
     blobId := Some JNull |}.

Definition initial_page : Page :=
  {| state := initial_state; mediaRecorderRef := None; audioChunksRef := [];
     requests := []; settled := 0; stop_tasks := [] |}.

(** Handlers run in a state and error monad over the page. *)
Definition M (A : Type) : Type := Page -> completion A * Page.

Definition ret {A} (a : A) : M A := fun p => (Normal a, p).

Definition bind {A B} (m : M A) (f : A -> M B) : M B :=
  fun p => match m p with
           | (Normal a, p') => f a p'
           | (Throw e, p') => (Throw e, p')
           end.

Definition lift {A} (c : completion A) : M A := fun p => (c, p).

Definition read {A} (f : Page -> A) : M A := fun p => (Normal (f p), p).

Definition modify (f : Page -> Page) : M unit := fun p => (Normal tt, f p).

(** [try { m } catch (error) { handler }]. *)
Definition try_catch {A} (m : M A) (handler : thrown -> M A) : M A :=
  fun p => match m p with
           | (Normal a, p') => (Normal a, p')
           | (Throw e, p') => handler e p'
           end.

(** [try { m } finally { f }]: [f] runs on both exits; the completion of
    [m] is kept unless [f] throws. *)
Definition try_finally {A} (m : M A) (f : M unit) : M A :=
  fun p => match m p with
           | (r, p') => match f p' with
                        | (Normal _, p'') => (r, p'')
                        | (Throw e, p'') => (Throw e, p'')
                        end
           end.

Notation "x <- m ;; k" := (bind m (fun x => k))
  (at level 61, m at next level, right associativity).
Notation "m ;;; k" := (bind m (fun _ => k))
  (at level 61, right associativity).

Definition with_state (f : State -> State) (p : Page) : Page :=
  {| state := f (state p); mediaRecorderRef := mediaRecorderRef p;
     audioChunksRef := audioChunksRef p; requests := requests p;
     settled := settled p; stop_tasks := stop_tasks p |}.

(** The setters of the state cells. *)
Definition setIsRecording (b : bool) : M unit :=
  modify (with_state (fun s =>
    {| isRecording := b; audioBlob := audioBlob s; uploading := uploading s;
       uploadStatus := uploadStatus s; showToast := showToast s;
       toastType := toastType s; blobId := blobId s |})).

Definition setAudioBlob (b : option Blob) : M unit :=
  modify (with_state (fun s =>
    {| isRecording := isRecording s; audioBlob := b; uploading := uploading s;
       uploadStatus := uploadStatus s; showToast := showToast s;
       toastType := toastType s; blobId := blobId s |})).

Definition setUploading (b : bool) : M unit :=
  modify (with_state (fun s =>
    {| isRecording := isRecording s; audioBlob := audioBlob s; uploading := b;
       uploadStatus := uploadStatus s; showToast := showToast s;
       toastType := toastType s; blobId := blobId s |})).

Definition setUploadStatus (t : string) : M unit :=
  modify (with_state (fun s =>
    {| isRecording := isRecording s; audioBlob := audioBlob s;
       uploading := uploading s; uploadStatus := t; showToast := showToast s;
       toastType := toastType s; blobId := blobId s |})).

Definition setShowToast (b : bool) : M unit :=
  modify (with_state (fun s =>
    {| isRecording := isRecording s; audioBlob := audioBlob s;
       uploading := uploading s; uploadStatus := uploadStatus s; showToast := b;
       toastType := toastType s; blobId := blobId s |})).

Definition setToastType (t : ToastType) : M unit :=
  modify (with_state (fun s =>
    {| isRecording := isRecording s; audioBlob := audioBlob s;
       uploading := uploading s; uploadStatus := uploadStatus s;
       showToast := showToast s; toastType := t; blobId := blobId s |})).

Definition setBlobId (v : value) : M unit :=
  modify (with_state (fun s =>
    {| isRecording := isRecording s; audioBlob := audioBlob s;
       uploading := uploading s; uploadStatus := uploadStatus s;
       showToast := showToast s; toastType := toastType s; blobId := v |})).

(** Assignments to the refs, and the effects on the world around the
    component. *)
Definition set_mediaRecorderRef (r : option MediaRecorder) : M unit :=
  modify (fun p =>
    {| state := state p; mediaRecorderRef := r; audioChunksRef := audioChunksRef p;
       requests := requests p; settled := settled p; stop_tasks := stop_tasks p |}).

Definition set_audioChunksRef (l : list Blob) : M unit :=
  modify (fun p =>
    {| state := state p; mediaRecorderRef := mediaRecorderRef p; audioChunksRef := l;
       requests := requests p; settled := settled p; stop_tasks := stop_tasks p |}).

(** [fetch(url, { method, body })]: the request goes out; the promise
    settles later. *)
Definition fetch (u m : string) (b : FormData) : M unit :=
  modify (fun p =>
    {| state := state p; mediaRecorderRef := mediaRecorderRef p;
       audioChunksRef := audioChunksRef p;
       requests := (requests p ++ [{| req_url := u; req_method := m; req_body := b |}])%list;
       settled := settled p; stop_tasks := stop_tasks p |}).

Definition settle_one : M unit :=
  modify (fun p =>
    {| state := state p; mediaRecorderRef := mediaRecorderRef p;
       audioChunksRef := audioChunksRef p; requests := requests p;
       settled := S (settled p); stop_tasks := stop_tasks p |}).

Definition set_stop_tasks (l : list string) : M unit :=
  modify (fun p =>
    {| state := state p; mediaRecorderRef := mediaRecorderRef p;
       audioChunksRef := audioChunksRef p; requests := requests p;
       settled := settled p; stop_tasks := l |}).

(** *** Recording *)

(** What the browser answers during one run of [startRecording]. *)
Record MediaEnv :=
  { isSafari : bool;
    hasMediaRecorder : bool;
    isTypeSupported : string -> bool;
    getUserMedia : completion unit;
    newMediaRecorder : option string -> completion unit;
    recorder_start : completion unit }.

Definition getSupportedMimeType (env : MediaEnv) : string :=
  let possibleTypes :=
    if isSafari env
    then ["audio/mp4"; "audio/aac"]
    else ["audio/webm;codecs=opus"; "audio/webm"; "audio/ogg"] in
  match find (fun type => hasMediaRecorder env && isTypeSupported env type) possibleTypes with
  | Some type => type
  | None => ""
  end.

(** [new Blob(chunks, { type })]. *)
Definition new_Blob (chunks : list Blob) (type : string) : Blob :=
  {| blob_bytes := concat (map blob_bytes chunks); blob_type := type |}.

(** [checkRequestMicrophonePermission()] is called without [await]: it
    talks to MiniKit and the console only, and a rejection of its promise
    does not reach the caller. *)
Definition checkRequestMicrophonePermission : M unit := ret tt.

Definition startRecording (env : MediaEnv) : M unit :=
  try_catch
    (checkRequestMicrophonePermission ;;;
     let mimeType := getSupportedMimeType env in
     lift (getUserMedia env) ;;;
     lift (newMediaRecorder env
             (if String.eqb mimeType "" then None else Some mimeType)) ;;;
     set_mediaRecorderRef (Some {| mimeType := mimeType; rec_state := Inactive |}) ;;;
     set_audioChunksRef [] ;;;
     lift (recorder_start env) ;;;
     set_mediaRecorderRef (Some {| mimeType := mimeType; rec_state := Recording |}) ;;;
     setIsRecording true ;;;
     setUploadStatus "")
    (fun error =>
       setUploadStatus ("Failed to access microphone: " ++ message error)).

(** [recorder.stop()]: an active recorder becomes inactive and queues its
    [stop] event; on an inactive recorder the call does nothing. *)
Definition recorder_stop (r : MediaRecorder) : M unit :=
  match rec_state r with
  | Recording =>
      set_mediaRecorderRef (Some {| mimeType := mimeType r; rec_state := Inactive |}) ;;;
      tasks <- read stop_tasks ;;
      set_stop_tasks (tasks ++ [mimeType r])%list
  | Inactive => ret tt
  end.

Definition stopRecording : M unit :=
  current <- read mediaRecorderRef ;;
  match current with
  | Some r => recorder_stop r ;;; setIsRecording false
  | None => ret tt
  end.

(** The [ondataavailable] and [onstop] callbacks of the recorder. *)
Definition ondataavailable (data : Blob) : M unit :=
  chunks <- read audioChunksRef ;;
  set_audioChunksRef (chunks ++ [data])%list.

Definition onstop (mimeType : string) : M unit :=
  chunks <- read audioChunksRef ;;
  setAudioBlob
    (Some (new_Blob chunks (if String.eqb mimeType "" then "audio/webm" else mimeType))).

(** *** Uploading *)

(** [handleUpload] up to its [await fetch(...)]: [None] is the early
    return, [Some formData] the request sent. *)
Definition handleUpload_sync (now : N) : M (option FormData) :=
  audioBlob <- read (fun p => audioBlob (state p)) ;;
  match audioBlob with
  | None => setUploadStatus "No recording to upload." ;;; ret None
  | Some b =>
      setUploading true ;;;
      setUploadStatus "Uploading to Walrus..." ;;;
      setShowToast false ;;;
      setBlobId (Some JNull) ;;;
      let formData :=
        formData_append [] "audio" b ("recording-" ++ dec now ++ ".webm") in
      fetch "/api/upload-walrus" "POST" formData ;;;
      ret (Some formData)
  end.

(** [handleUpload] from the point where the promise of [fetch] has settled
    with [o]: the rest of the [try] block, [catch] and [finally]. *)
Definition handleUpload_resume (o : completion Response) : M unit :=
  try_finally
    (try_catch
       (response <- lift o ;;
        result <- lift (json_body response) ;;
        cond <- (if ok response
                 then success <- lift (get_prop result "success") ;; ret (truthy success)
                 else ret false) ;;
        if cond : bool then
          shown <- lift (get_prop result "blobId") ;;
          setUploadStatus ("Upload successful! Blob ID: " ++ to_string shown) ;;;
          id <- lift (get_prop result "blobId") ;;
          setBlobId id ;;;
          setToastType ToastSuccess ;;;
          setShowToast true ;;;
          setAudioBlob None
        else
          error <- lift (get_prop result "error") ;;
          setUploadStatus
            ("Upload failed: " ++ to_string (or_else error (Some (JStr "Unknown error")))) ;;;
          setToastType ToastError ;;;
          setShowToast true)
       (fun error =>
          setUploadStatus ("Error uploading to Walrus: " ++ message error) ;;;
          setToastType ToastError ;;;
          setShowToast true))
    (setUploading false).

(** One whole run of [handleUpload], with nothing else running while the
    request is in flight. *)
Definition handleUpload (now : N) (o : completion Response) : M unit :=
  sent <- handleUpload_sync now ;;
  match sent with
  | None => ret tt
  | Some _ => settle_one ;;; handleUpload_resume o
  end.

(** The request [handleUpload] sends for the recording [b] at time [now]. *)
Definition upload_request (b : Blob) (now : N) : HttpRequest :=
  {| req_url := "/api/upload-walrus"; req_method := "POST";
     req_body := [("audio", EntryFile b ("recording-" ++ dec now ++ ".webm"))] |}.

(** The response was ok and [result.success] is truthy. *)
Definition upload_success (o : completion Response) : bool :=
  match o with
  | Normal {| ok := true; json_body := Normal result |} =>
      match get_prop result "success" with
      | Normal success => truthy success
      | Throw _ => false
      end
  | _ => false
  end.

(** The two shapes of the error text of [handleUpload]. *)
Definition is_error_status (t : string) : bool :=
  String.prefix "Upload failed: " t || String.prefix "Error uploading to Walrus: " t.

(** *** The page as a transition system *)

(** The [disabled] attributes of the three buttons. *)
Definition start_disabled (s : State) : bool := isRecording s || uploading s.
Definition stop_disabled (s : State) : bool := negb (isRecording s) || uploading s.
Definition upload_disabled (s : State) : bool :=
  negb (match audioBlob s with Some _ => true | None => false end) || uploading s.

Inductive Action :=
| ClickStart (env : MediaEnv)
| ClickStop
| ClickUpload (now : N)
| FetchSettled (o : completion Response)
| DataAvailable (data : Blob)
| StopFired.

(** An action can happen: a click needs its button enabled, a settlement a
    request in flight, a recorder event a recorder that produces it. *)
Definition enabled (a : Action) (p : Page) : bool :=
  match a with
  | ClickStart _ => negb (start_disabled (state p))
  | ClickStop => negb (stop_disabled (state p))
  | ClickUpload _ => negb (upload_disabled (state p))
  | FetchSettled _ => Nat.ltb (settled p) (length (requests p))
  | DataAvailable _ =>
      match mediaRecorderRef p with
      | Some {| rec_state := Recording |} => true
      | _ => match stop_tasks p with [] => false | _ => true end
      end
  | StopFired => match stop_tasks p with [] => false | _ => true end
  end.

Definition handler (a : Action) : M unit :=
  match a with
  | ClickStart env => startRecording env
  | ClickStop => stopRecording
  | ClickUpload now => handleUpload_sync now ;;; ret tt
  | FetchSettled o => settle_one ;;; handleUpload_resume o
  | DataAvailable data => ondataavailable data
  | StopFired =>
      tasks <- read stop_tasks ;;
      match tasks with
      | [] => ret tt
      | mimeType :: rest => set_stop_tasks rest ;;; onstop mimeType
      end
  end.

Definition step (a : Action) (p : Page) : option Page :=
  if enabled a p then Some (snd (handler a p)) else None.

Fixpoint run (l : list Action) (p : Page) : option Page :=
  match l with
  | [] => Some p
  | a :: r => match step a p with
              | Some p' => run r p'
              | None => None
              end
  end.

Definition reachable (p : Page) : Prop := exists l, run l initial_page = Some p.

(** A browser, a recorded page and responses to try the handlers on. *)
Definition chrome_env : MediaEnv :=
  {| isSafari := false;
     hasMediaRecorder := true;
     isTypeSupported := fun type => String.eqb type "audio/webm";
     getUserMedia := Normal tt;
     newMediaRecorder := fun _ => Normal tt;
     recorder_start := Normal tt |}.

Definition sample_chunk : Blob :=
  {| blob_bytes := [Byte.x1a; Byte.x45; Byte.xdf; Byte.xa3]; blob_type := "audio/webm" |}.

Definition recorded_page : Page :=
  {| state :=
       {| isRecording := false; audioBlob := Some sample_chunk; uploading := false;
          uploadStatus := ""; showToast := false; toastType := ToastSuccess;
          blobId := Some JNull |};
     mediaRecorderRef := Some {| mimeType := "audio/webm"; rec_state := Inactive |};
     audioChunksRef := [sample_chunk];
     requests := []; settled := 0; stop_tasks := [] |}.

Definition success_result : json :=
  JObj [("success", JBool true);
        ("blobId", JStr "M4hsZGQ1oCktdzegB6HnI6Mi28S2nqOPHxK-W7_4BUk");
        ("message", JStr "Audio uploaded successfully to Walrus")].

Definition success_reply : completion Response :=
  Normal {| ok := true; json_body := Normal success_result |}.

Definition failure_reply : completion Response :=
  Normal {| ok := false;
            json_body := Normal (JObj [("error", JStr "No audio blob provided")]) |}.

Definition network_error : thrown := {| message := "Failed to fetch" |}.

(** Record, stop, record again and press Upload while the second recording
    runs. *)
Definition upload_while_recording : list Action :=
  [ClickStart chrome_env; DataAvailable sample_chunk; ClickStop; StopFired;
   ClickStart chrome_env; ClickUpload 1700000000000].

End AudioRecorder.

(** ** The user-agent test [isSafari] of AudioRecorder.tsx *)

Module UserAgent.

(** Letters compare without case under the [i] flag. *)
Definition lower (c : ascii) : ascii :=
  let n := nat_of_ascii c in
  if (65 <=? n)%nat && (n <=? 90)%nat then ascii_of_nat (n + 32) else c.

(** The text starts with the word, letter case aside. *)
Fixpoint starts_with_ci (word text : string) : bool :=
  match word with
  | "" => true
  | String a word' =>
      match text with
      | "" => false
      | String b text' => Ascii.eqb (lower a) (lower b) && starts_with_ci word' text'
      end
  end.

(** The negative lookahead [(?!chrome|android)] fails at this text. *)
Definition blocked (text : string) : bool :=
  starts_with_ci "chrome" text || starts_with_ci "android" text.

(** [.] matches any character but a line terminator. *)
Definition is_line_terminator (c : ascii) : bool :=
  Ascii.eqb c "010" || Ascii.eqb c "013".

(** [/^((?!chrome|android).)*safari/i.test(userAgent)]: from the start, the
    matcher may step over a character where the lookahead holds, until
    "safari" follows. *)
Fixpoint isSafari (userAgent : string) : bool :=
  starts_with_ci "safari" userAgent
  || match userAgent with
     | "" => false
     | String c rest =>
         negb (blocked userAgent) && negb (is_line_terminator c) && isSafari rest
     end.

(** What the pattern says: the user agent is [skipped ++ rest], [rest]
    starts with "safari", and at no character of [skipped] does "chrome" or
    "android" start or a line end. *)
Definition matches_pattern (userAgent : string) : Prop :=
  exists skipped rest,
    userAgent = skipped ++ rest /\
    starts_with_ci "safari" rest = true /\
    forall before c after,
      skipped = before ++ String c after ->
      blocked (String c after ++ rest) = false /\ is_line_terminator c = false.

Definition chrome_user_agent : string :=
  "Mozilla/5.0 (Windows NT 10.0; Win64; x64) AppleWebKit/537.36 (KHTML, like Gecko) Chrome/120.0.0.0 Safari/537.36".

Definition safari_user_agent : string :=
  "Mozilla/5.0 (Macintosh; Intel Mac OS X 10_15_7) AppleWebKit/605.1.15 (KHTML, like Gecko) Version/17.0 Safari/605.1.15".

End UserAgent.

(** ** More requests and libraries to try the route on *)

Module RouteSamples.

Import Route.

(** Libraries whose storage call throws. *)
Definition failing_libraries : Libraries :=
  {| Keypair := Keypair ok_libraries;
     Client := Client ok_libraries;
     getFullnodeUrl := getFullnodeUrl ok_libraries;
     newClient := newClient ok_libraries;
     fromB64 := fromB64 ok_libraries;
     fromSecretKey := fromSecretKey ok_libraries;
     writeBlob := fun _ _ => Throw {| message := "Not enough WAL to pay for storage" |} |}.

(** A form whose "audio" field is a text and not a file. *)
Definition text_request : NextRequest :=
  {| formData := Normal [("audio", EntryString "hello")] |}.

(** The sample recording sent under another file name and type, with a
    further field. *)
Definition renamed_request : NextRequest :=
  {| formData :=
       Normal [("note", EntryString "take 2");
               ("audio", EntryFile {| blob_bytes := blob_bytes sample_blob;
                                      blob_type := "audio/mp4" |} "voice.mp4")] |}.

End RouteSamples.

(** ** What the component renders *)

Module View.

Import AudioRecorder.

(** [{uploadStatus && <p .../>}]: the status line is there when the text
    is not empty. *)
Definition status_shown (s : State) : bool := negb (String.eqb (uploadStatus s) "").

(** The colour class of the status line. *)
Definition status_class (s : State) : string :=
  if String.prefix "Upload successful" (uploadStatus s)
  then "text-green-600"
  else "text-red-600".

(** The toast: absent, the success toast with or without its
    "Copy Blob ID" button, or the failure toast. *)
Inductive Toast :=
| NoToast
| SuccessToast (copy_button : bool)
| FailureToast.

Definition toast (s : State) : Toast :=
  if showToast s then
    match toastType s with
    | ToastSuccess => SuccessToast (truthy (blobId s))
    | ToastError => FailureToast
    end
  else NoToast.

(** [copyBlobId]: the text written to the clipboard, if any. *)
Definition copyBlobId (s : State) : option string :=
  if truthy (blobId s) then Some (to_string (blobId s)) else None.

End View.

(** ** The request of the component answered by the route *)

Module Transport.

Import AudioRecorder.

(** [response.ok]: the status is in the range 200-299. *)
Definition response_ok (status : Z) : bool := ((200 <=? status) && (status <=? 299))%Z.

(** What [fetch] resolves to when the route answers the request: the body
    of [NextResponse.json] read back by [response.json()].  An exception
    leaving the route would be answered by the framework with a body that is
    not JSON. *)
Definition deliver (L : Route.Libraries) (request : HttpRequest) : completion Response :=
  match Route.POST L {| Route.formData := Normal (req_body request) |} with
  | Some r =>
      Normal {| ok := response_ok (Route.status r);
                json_body := Normal (JObj (Route.body r)) |}
  | None =>
      Normal {| ok := false;
                json_body := Throw {| message := "Unexpected token I in JSON at position 0" |} |}
  end.

(** The events of the route while it answers. *)
Definition route_events (L : Route.Libraries) (request : HttpRequest)
  : list (Route.Event (Route.Keypair L)) :=
  Route.events L {| Route.formData := Normal (req_body request) |}.

End Transport.

(** ** The microphone permission calls of AudioRecorder.tsx *)

Module Permissions.

(** [payload.finalPayload] of the two MiniKit commands, as far as the code
    reads it: the status, and for [getPermissions] whether
    [permissions.microphone] is truthy. *)
Inductive GetPermissionsPayload :=
| PermissionsSuccess (microphone : bool)
| PermissionsError.

Inductive RequestPermissionPayload :=
| RequestSuccess
| RequestError.

(** What MiniKit answers; a [Throw] is a rejected promise. *)
Record MiniKit :=
  { getPermissions : completion GetPermissionsPayload;
    requestPermission : string -> completion RequestPermissionPayload }.

Inductive Effect :=
| CallGetPermissions
| CallRequestPermission (permission : string)
| ConsoleLog (words : list string)
| ConsoleError (text : string).

(** [Permission.Microphone]. *)
Definition Microphone : string := "microphone".

Definition requestMicrophonePermission (kit : MiniKit) : list Effect :=
  CallRequestPermission Microphone ::
  match requestPermission kit Microphone with
  | Normal RequestSuccess => [ConsoleLog ["Microphone permission granted"]]
  | Normal RequestError => [ConsoleError "Failed to request microphone permission:"]
  | Throw _ => []
  end.

Definition checkRequestMicrophonePermission (kit : MiniKit) : list Effect :=
  CallGetPermissions ::
  match getPermissions kit with
  | Normal (PermissionsSuccess hasPermission) =>
      ConsoleLog ["Microphone permission:"; if hasPermission then "Granted" else "Not granted"]
      :: (if negb hasPermission then requestMicrophonePermission kit else [])
  | Normal PermissionsError => [ConsoleError "Failed to check permissions:"]
  | Throw _ => []
  end.

(** The permissions asked for. *)
Fixpoint requested (l : list Effect) : list string :=
  match l with
  | [] => []
  | CallRequestPermission permission :: r => permission :: requested r
  | _ :: r => requested r
  end.

End Permissions.

(** ** The handlers of the component, interleaved *)

Module Interleaving.

Import AudioRecorder.

(** A piece of the component's code that runs without interruption.
    [startRecording] awaits [getUserMedia] before it first touches the page,
    so what it does to the page happens when it resumes, whatever the
    buttons show then; the callbacks of a recorder and the timer of the
    toast come when they come.  The clicks on Stop and Upload run at once. *)
Inductive Turn :=
| StartResumes (env : MediaEnv)
| StopClicked
| UploadClicked (now : N)
| FetchSettles (o : completion Response)
| ChunkArrives (data : Blob)
| RecorderStops (mimeType : string)
| ToastExpires.

Definition allowed (t : Turn) (p : Page) : bool :=
  match t with
  | StopClicked => negb (stop_disabled (state p))
  | UploadClicked _ => negb (upload_disabled (state p))
  | FetchSettles _ => Nat.ltb (settled p) (length (requests p))
  | _ => true
  end.

Definition turn (t : Turn) : M unit :=
  match t with
  | StartResumes env => startRecording env
  | StopClicked => stopRecording
  | UploadClicked now => handleUpload_sync now ;;; ret tt
  | FetchSettles o => settle_one ;;; handleUpload_resume o
  | ChunkArrives data => ondataavailable data
  | RecorderStops mimeType => onstop mimeType
  | ToastExpires => setShowToast false
  end.

Inductive reachable : Page -> Prop :=
| reach_initial : reachable initial_page
| reach_turn t p : reachable p -> allowed t p = true -> reachable (snd (turn t p)).

Fixpoint play (l : list Turn) (p : Page) : option Page :=
  match l with
  | [] => Some p
  | t :: r => if allowed t p then play r (snd (turn t p)) else None
  end.

(** The requests sent and not yet settled. *)
Definition in_flight (p : Page) : nat := length (requests p) - settled p.

(** A request as [handleUpload] builds it. *)
Definition well_formed (r : HttpRequest) : Prop :=
  req_url r = "/api/upload-walrus" /\
  req_method r = "POST" /\
  exists b now, req_body r = [("audio", EntryFile b ("recording-" ++ dec now ++ ".webm"))].

(** What every reachable page satisfies: the requests sent are those
    settled plus the one in flight while [uploading] is true; every request
    is well formed; and [isRecording] is true only with a recorder in
    [mediaRecorderRef]. *)
Definition invariant (p : Page) : Prop :=
  settled p + (if uploading (state p) then 1 else 0) = length (requests p) /\
  Forall well_formed (requests p) /\
  (isRecording (state p) = true -> mediaRecorderRef p <> None).

End Interleaving.

(** ** More browsers and pages to try the component on *)

Module RecorderSamples.

Import AudioRecorder.

(** A browser in which the user refuses the microphone. *)
Definition denied_env : MediaEnv :=
  {| isSafari := false;
     hasMediaRecorder := true;
     isTypeSupported := fun type => String.eqb type "audio/webm";
     getUserMedia := Throw {| message := "Permission denied" |};
     newMediaRecorder := fun _ => Normal tt;
     recorder_start := Normal tt |}.

(** Safari, which records MP4. *)
Definition safari_env : MediaEnv :=
  {| isSafari := true;
     hasMediaRecorder := true;
     isTypeSupported := fun type => String.eqb type "audio/mp4";
     getUserMedia := Normal tt;
     newMediaRecorder := fun _ => Normal tt;
     recorder_start := Normal tt |}.

(** A browser whose recorder refuses to start. *)
Definition broken_recorder_env : MediaEnv :=
  {| isSafari := false;
     hasMediaRecorder := true;
     isTypeSupported := fun type => String.eqb type "audio/webm";
     getUserMedia := Normal tt;
     newMediaRecorder := fun _ => Normal tt;
     recorder_start := Throw {| message := "The MediaRecorder failed to start" |} |}.

Definition second_chunk : Blob :=
  {| blob_bytes := [Byte.x42; Byte.x86]; blob_type := "audio/webm" |}.

(** A page on which a recording runs. *)
Definition recording_page : Page :=
  {| state :=
       {| isRecording := true; audioBlob := None; uploading := false;
          uploadStatus := ""; showToast := false; toastType := ToastSuccess;
          blobId := Some JNull |};
     mediaRecorderRef := Some {| mimeType := "audio/webm"; rec_state := Recording |};
     audioChunksRef := [sample_chunk];
     requests := []; settled := 0; stop_tasks := [] |}.

(** A recording made and its upload under way. *)
Definition upload_session : list Interleaving.Turn :=
  [Interleaving.StartResumes chrome_env; Interleaving.ChunkArrives sample_chunk;
   Interleaving.StopClicked; Interleaving.RecorderStops "audio/webm";
   Interleaving.UploadClicked 1700000000000].

Definition uploading_page : Page :=
  match Interleaving.play upload_session initial_page with
  | Some p => p
  | None => initial_page
  end.

(** A success reply without an identifier. *)
Definition bare_success_reply : completion Response :=
  Normal {| ok := true; json_body := Normal (JObj [("success", JBool true)]) |}.

End RecorderSamples.

(** ** Properties of the route *)

Module RouteProperties.

Import Route.

(** Every run of the route is one of the four runs of [Run]. *)
Lemma POST_M_Run (L : Libraries) (request : NextRequest) :
  Run L request (POST_M L request).
Proof.
  unfold POST_M, POST_try.
  destruct (formData request) as [fd|e] eqn:Hfd; cbn.
  2:{ apply RunFailedBefore. now left. }
  destruct (formData_get "audio" fd) as [[b name|s]|] eqn:Hget; cbn.
  - destruct (getFullnodeUrl L "testnet") as [u|e]; cbn.
    2:{ apply RunFailedBefore. right. exists fd. rewrite Hget. now split. }
    destruct (newClient L _ _) as [c|e]; cbn.
    2:{ apply RunFailedBefore. right. exists fd. rewrite Hget. now split. }
    destruct (fromB64 L privateKey) as [raw|e] eqn:Hraw; cbn.
    2:{ apply RunFailedBefore. right. exists fd. rewrite Hget. now split. }
    destruct (fromSecretKey L raw) as [k|e] eqn:Hk; cbn.
    2:{ apply RunFailedBefore. right. exists fd. rewrite Hget. now split. }
    assert (HP : Prepared L request
                   {| blob := blob_bytes b; deletable := false; epochs := 3; signer := k |}).
    { exists fd, b, name, raw. cbn. auto. }
    destruct (writeBlob L c _) as [id|e]; cbn.
    + now apply RunUploaded.
    + now apply RunWriteFailed.
  - destruct (String.eqb s "") eqn:Hs; cbn.
    + apply (RunMissingAudio L request fd Hfd). rewrite Hget. exact Hs.
    + apply RunFailedBefore. right. exists fd. rewrite Hget. now split.
  - apply (RunMissingAudio L request fd Hfd). now rewrite Hget.
Qed.

Ltac run_cases L request :=
  unfold response_fields, POST, events;
  destruct (POST_M_Run L request) as [rfd Hrfd Hfalsy|rargs rid HP|rargs rerr HP|rerr Hearly]; cbn.

(** The route always answers: no exception leaves [POST]. *)
Lemma POST_total (L : Libraries) (request : NextRequest) :
  exists r, POST L request = Some r.
Proof. run_cases L request; eauto. Qed.

(** C1: the response body of [POST] carries [blobId] exactly when the
    upload succeeded, that is when a [writeBlob] call completed; every other
    response (missing audio, thrown exception) carries [error] and no
    [blobId]. *)
Theorem blobId_iff_upload_succeeded (L : Libraries) (request : NextRequest) :
  exists r,
    POST L request = Some r /\
    has_field "blobId" r = upload_succeeded (events L request) /\
    has_field "error" r = negb (upload_succeeded (events L request)).
Proof. run_cases L request; eexists; repeat split. Qed.

(** C2, as stated, fails: the success response has a third field,
    [message]. *)
Lemma success_response_has_message :
  response_fields ok_libraries sample_request = Some ["success"; "blobId"; "message"] /\
  ~ (response_fields ok_libraries sample_request = Some ["success"; "blobId"] \/
     response_fields ok_libraries sample_request = Some ["error"]).
Proof.
  split; [reflexivity|].
  intros [H|H]; vm_compute in H; discriminate H.
Qed.

(** C2, amended: the body of the response has exactly the fields [success],
    [blobId] and [message] when the upload succeeded, and exactly the field
    [error] otherwise. *)
Theorem response_fields_shapes (L : Libraries) (request : NextRequest) :
  (response_fields L request = Some ["success"; "blobId"; "message"] /\
   upload_succeeded (events L request) = true) \/
  (response_fields L request = Some ["error"] /\
   upload_succeeded (events L request) = false).
Proof. run_cases L request; auto. Qed.

(** C4: when the form carries a file under "audio", every [writeBlob] call
    of the route receives the bytes of that file, unchanged; and when the
    libraries set up the client and the key pair without throwing, there is
    exactly one such call. *)
Theorem writeBlob_receives_uploaded_bytes
  (L : Libraries) (request : NextRequest) (fd : FormData) (b : Blob) (name : string) :
  formData request = Normal fd ->
  formData_get "audio" fd = Some (EntryFile b name) ->
  (forall args, In args (writeBlob_calls (events L request)) -> blob args = blob_bytes b) /\
  (forall u c raw k,
      getFullnodeUrl L "testnet" = Normal u ->
      newClient L {| url := u; network := "testnet" |}
        {| fanOut_host := "https://fan-out.testnet.walrus.space"; sendTip_max := 1000 |}
        = Normal c ->
      fromB64 L privateKey = Normal raw ->
      fromSecretKey L raw = Normal k ->
      map blob (writeBlob_calls (events L request)) = [blob_bytes b]).
Proof.
  intros Hfd Hget. split.
  - run_cases L request; try tauto.
    all: intros a [<-|[]]; destruct HP as (fd' & b' & n' & raw & H1 & H2 & _ & _ & ->); cbn.
    all: rewrite Hfd in H1; injection H1 as <-; rewrite Hget in H2; now injection H2 as <- _.
  - intros u c raw k Hu Hc Hraw Hk.
    unfold events, POST_M, POST_try.
    rewrite Hfd; cbn. rewrite Hget; cbn. rewrite Hu; cbn. rewrite Hc; cbn.
    rewrite Hraw; cbn. rewrite Hk; cbn.
    destruct (writeBlob L c _); reflexivity.
Qed.

Lemma writeBlob_receives_uploaded_bytes_witness :
  map blob (writeBlob_calls (events ok_libraries sample_request))
  = [[Byte.x1a; Byte.x45; Byte.xdf; Byte.xa3]].
Proof.
  exact (proj2 (writeBlob_receives_uploaded_bytes ok_libraries sample_request
                  _ sample_blob _ eq_refl eq_refl)
           _ _ _ _ eq_refl eq_refl eq_refl eq_refl).
Defined.

(** C7, as stated, fails: a request without an audio entry is answered with
    the route's own error text, and no exception was caught. *)
Lemma missing_audio_error_is_not_an_exception :
  POST ok_libraries empty_request
  = Some {| status := 400; body := [("error", JStr "No audio blob provided")] |} /\
  caught (events ok_libraries empty_request) = [] /\
  ~ (exists e, In e (caught (events ok_libraries empty_request))).
Proof.
  repeat split. intros [e []].
Qed.

(** What the route answers when its [try] block throws [e]. *)
Lemma Raised_response (L : Libraries) (request : NextRequest) (e : thrown) :
  Raised L request e ->
  POST L request
  = Some {| status := 500;
            body := [("error", JStr ("Failed to upload to Walrus: " ++ message e))] |} /\
  caught (events L request) = [e].
Proof.
  unfold POST, events, POST_M, POST_try.
  intros [H|fd Hfd Hf Ha|fd bytes Hfd Hf Ha HL].
  - rewrite H. split; reflexivity.
  - rewrite Hfd; cbn. rewrite Hf, Ha. split; reflexivity.
  - rewrite Hfd; cbn. rewrite Hf, Ha; cbn.
    destruct HL as [H1|u H1 H2|u c H1 H2 H3|u c raw H1 H2 H3 H4|u c raw k H1 H2 H3 H4 H5];
      rewrite H1; cbn; try (rewrite H2; cbn); try (rewrite H3; cbn);
      try (rewrite H4; cbn); try (unfold call_writeBlob; rewrite H5; cbn);
      split; reflexivity.
Qed.

(** C7, amended: a status-500 error of the route passes through the
    exception thrown inside its [try] block: the error text is
    "Failed to upload to Walrus: " followed by the message of the exception
    that [request.formData()], [audioBlob.arrayBuffer()] or the first
    failing library call ([getFullnodeUrl], the client construction,
    [fromB64], [fromSecretKey], [writeBlob]) threw, and whenever one of them
    throws this is the answer.  The only other error is the route's own
    status-400 answer "No audio blob provided", sent when the form has no
    (or an empty) audio entry and nothing was thrown. *)
Theorem error_is_caught_message_or_missing_audio (L : Libraries) (request : NextRequest) :
  exists r,
    POST L request = Some r /\
    ((status r = 200%Z /\ has_field "error" r = false) \/
     (status r = 400%Z /\
      body r = [("error", JStr "No audio blob provided")] /\
      caught (events L request) = [] /\
      exists fd, formData request = Normal fd /\
                 entry_falsy (formData_get "audio" fd) = true) \/
     (status r = 500%Z /\
      exists e, Raised L request e /\
                caught (events L request) = [e] /\
                body r = [("error", JStr ("Failed to upload to Walrus: " ++ message e))])) /\
    (forall e,
        Raised L request e ->
        r = {| status := 500;
               body := [("error", JStr ("Failed to upload to Walrus: " ++ message e))] |}).
Proof.
  destruct (POST_total L request) as [r Hr]. exists r. split; [exact Hr|].
  assert (Hconv : forall e,
             Raised L request e ->
             r = {| status := 500;
                    body := [("error",
                              JStr ("Failed to upload to Walrus: " ++ message e))] |}).
  { intros e He. destruct (Raised_response L request e He) as [Hp _].
    rewrite Hr in Hp. now injection Hp. }
  split; [|exact Hconv].
  match goal with
  | |- ?G => assert (Hfail : forall e, Raised L request e -> G)
  end.
  { intros e He. right; right. rewrite (Hconv e He). split; [reflexivity|].
    exists e. repeat split; auto. now apply Raised_response. }
  unfold POST, POST_M, POST_try in Hr. revert Hr.
  destruct (formData request) as [fd|e] eqn:Hfd.
  2:{ intros _. apply (Hfail e). now apply RaisedByFormData. }
  destruct (entry_falsy (formData_get "audio" fd)) eqn:Hf.
  { cbn. rewrite Hf; cbn. intros [= <-]. right; left.
    unfold events, POST_M, POST_try. rewrite Hfd; cbn. rewrite Hf; cbn.
    repeat split. eauto. }
  destruct (arrayBuffer (formData_get "audio" fd)) as [bytes|e] eqn:Ha.
  2:{ intros _. apply (Hfail e). now apply (RaisedByArrayBuffer L request e fd). }
  destruct (getFullnodeUrl L "testnet") as [u|e] eqn:H1.
  2:{ intros _. apply (Hfail e). apply (RaisedByLibrary L request e fd bytes); auto.
      now apply ThrowsGetFullnodeUrl. }
  destruct (newClient L {| url := u; network := "testnet" |}
              {| fanOut_host := "https://fan-out.testnet.walrus.space";
                 sendTip_max := 1000 |}) as [c|e] eqn:H2.
  2:{ intros _. apply (Hfail e). apply (RaisedByLibrary L request e fd bytes); auto.
      now apply (ThrowsNewClient L bytes e u). }
  destruct (fromB64 L privateKey) as [raw|e] eqn:H3.
  2:{ intros _. apply (Hfail e). apply (RaisedByLibrary L request e fd bytes); auto.
      now apply (ThrowsFromB64 L bytes e u c). }
  destruct (fromSecretKey L raw) as [k|e] eqn:H4.
  2:{ intros _. apply (Hfail e). apply (RaisedByLibrary L request e fd bytes); auto.
      now apply (ThrowsFromSecretKey L bytes e u c raw). }
  destruct (writeBlob L c {| blob := bytes; deletable := false; epochs := 3;
                             signer := k |}) as [id|e] eqn:H5.
  2:{ intros _. apply (Hfail e). apply (RaisedByLibrary L request e fd bytes); auto.
      now apply (ThrowsWriteBlob L bytes e u c raw k). }
  cbn. rewrite ?Hf, ?Ha; cbn. rewrite ?H1; cbn. rewrite ?H2; cbn. rewrite ?H3; cbn.
  rewrite ?H4; cbn. unfold call_writeBlob. rewrite ?H5; cbn.
  intros [= <-]. left. split; reflexivity.
Qed.

Lemma error_is_caught_message_or_missing_audio_witness :
  POST throwing_libraries sample_request
  = Some {| status := 500;
            body := [("error",
                      JStr "Failed to upload to Walrus: could not reach the storage nodes")] |}.
Proof.
  destruct (error_is_caught_message_or_missing_audio throwing_libraries sample_request)
    as (r & Hr & _ & Hconv).
  rewrite Hr. f_equal.
  apply (Hconv {| message := "could not reach the storage nodes" |}).
  apply (RaisedByLibrary throwing_libraries sample_request _
           [("audio", EntryFile sample_blob "recording-1700000000000.webm")]
           (blob_bytes sample_blob) eq_refl eq_refl eq_refl).
  apply (ThrowsWriteBlob throwing_libraries _ _
           "https://fullnode.testnet.sui.io:443" "https://fullnode.testnet.sui.io:443"
           [Byte.x72; Byte.x2c] [Byte.x72; Byte.x2c]);
    reflexivity.
Defined.

(** C8: in every [writeBlob] call of the route, [deletable] is [false],
    [epochs] is 3 and the signer is the key pair made from the constant
    [privateKey] of the source; so the calls of any two requests have the
    same signer and the same storage parameters. *)
Theorem writeBlob_signer_and_parameters_fixed (L : Libraries) :
  privateKey = "cixQDTswNJCcWkigndtmaqU23Myv+dU8x1+/YCkofXk=" /\
  (forall request args,
      In args (writeBlob_calls (events L request)) ->
      deletable args = false /\ epochs args = 3%Z /\
      exists raw, fromB64 L privateKey = Normal raw /\
                  fromSecretKey L raw = Normal (signer args)) /\
  (forall request1 request2 args1 args2,
      In args1 (writeBlob_calls (events L request1)) ->
      In args2 (writeBlob_calls (events L request2)) ->
      signer args1 = signer args2 /\
      deletable args1 = deletable args2 /\
      epochs args1 = epochs args2).
Proof.
  assert (Hone : forall request args,
             In args (writeBlob_calls (events L request)) ->
             deletable args = false /\ epochs args = 3%Z /\
             exists raw, fromB64 L privateKey = Normal raw /\
                         fromSecretKey L raw = Normal (signer args)).
  { intros request. run_cases L request; try tauto.
    all: intros a [<-|[]]; destruct HP as (fd' & b' & n' & raw & _ & _ & H3 & H4 & ->); cbn in *.
    all: repeat split; eauto. }
  split; [reflexivity|]. split; [exact Hone|].
  intros r1 r2 a1 a2 H1 H2.
  destruct (Hone r1 a1 H1) as (-> & -> & raw1 & Hr1 & Hk1).
  destruct (Hone r2 a2 H2) as (-> & -> & raw2 & Hr2 & Hk2).
  repeat split.
  rewrite Hr1 in Hr2. injection Hr2 as <-.
  rewrite Hk1 in Hk2. now injection Hk2.
Qed.

Lemma writeBlob_signer_and_parameters_fixed_witness :
  let args := {| blob := blob_bytes sample_blob; deletable := false; epochs := 3;
                 signer := [Byte.x72; Byte.x2c] |} in
  In args (writeBlob_calls (events ok_libraries sample_request)) /\
  deletable args = false /\ epochs args = 3%Z /\
  exists raw, fromB64 ok_libraries privateKey = Normal raw /\
              fromSecretKey ok_libraries raw = Normal (signer args).
Proof.
  split.
  - left. reflexivity.
  - apply (proj1 (proj2 (writeBlob_signer_and_parameters_fixed ok_libraries)) sample_request).
    left. reflexivity.
Defined.

End RouteProperties.

(** ** Properties of the component *)

Module AudioRecorderProperties.

Import AudioRecorder.

Ltac run_upload H :=
  unfold handleUpload, handleUpload_sync, handleUpload_resume, try_finally, try_catch,
    bind, read, lift;
  rewrite H; cbn.

Ltac split_reply o :=
  let resp := fresh "resp" in
  let okb := fresh "okb" in
  let result := fresh "result" in
  let e := fresh "e" in
  destruct o as [[okb [result|e]]|e]; cbn;
  [destruct okb; cbn;
   [destruct result as [| | | | |fs]; cbn;
    try (destruct (assoc "success" fs) as [[|[|]|[[|] ?]|[|? ?]| |]|]; cbn)
   |destruct result as [| | | | |fs]; cbn]
  |destruct okb; cbn
  |].

Lemma prefix_app (a b : string) : String.prefix a (a ++ b) = true.
Proof.
  induction a as [|c a IH]; cbn; [now destruct b|].
  destruct (ascii_dec c c) as [_|Hc]; [exact IH|now elim Hc].
Qed.

Lemma upload_failed_is_error (t : string) : is_error_status ("Upload failed: " ++ t) = true.
Proof. unfold is_error_status. now rewrite prefix_app. Qed.

Lemma error_uploading_is_error (t : string) :
  is_error_status ("Error uploading to Walrus: " ++ t) = true.
Proof. unfold is_error_status. rewrite (prefix_app "Error uploading to Walrus: "). apply orb_true_r. Qed.

(** C5: a run of [handleUpload] on a recording sends exactly one request
    whatever the outcome, ends with [uploading] false, and on every failure
    (response not ok, [result.success] not truthy, or something thrown)
    leaves an error text in [uploadStatus]. *)
Theorem handleUpload_one_request_and_error_text
  (now : N) (o : completion Response) (p : Page) (b : Blob) :
  audioBlob (state p) = Some b ->
  let p' := snd (handleUpload now o p) in
  fst (handleUpload now o p) = Normal tt /\
  requests p' = (requests p ++ [upload_request b now])%list /\
  uploading (state p') = false /\
  (upload_success o = false -> is_error_status (uploadStatus (state p')) = true).
Proof.
  intros H. run_upload H.
  split_reply o; repeat split; auto; try discriminate; intros _;
    first [apply upload_failed_is_error | apply error_uploading_is_error].
Qed.

Lemma handleUpload_one_request_and_error_text_witness :
  let p' := snd (handleUpload 1700000000000 failure_reply recorded_page) in
  fst (handleUpload 1700000000000 failure_reply recorded_page) = Normal tt /\
  requests p' = [upload_request sample_chunk 1700000000000] /\
  uploading (state p') = false /\
  is_error_status (uploadStatus (state p')) = true.
Proof.
  destruct (handleUpload_one_request_and_error_text 1700000000000 failure_reply
              recorded_page sample_chunk eq_refl) as (H1 & H2 & H3 & H4).
  exact (conj H1 (conj H2 (conj H3 (H4 eq_refl)))).
Defined.

Lemma includes_suffix (a b : string) : includes (a ++ b) b.
Proof.
  exists a, "". f_equal. induction b as [|c b IH]; cbn; [reflexivity|now rewrite <- IH].
Qed.

(** C3: after a run of [handleUpload] on a recording, when the response was
    ok and [result.success] truthy, [uploadStatus] is
    "Upload successful! Blob ID: " followed by [result.blobId], so it
    contains the identifier; when [fetch] or [response.json()] threw,
    [uploadStatus] is the error text "Error uploading to Walrus: " followed
    by the message of what was thrown. *)
Theorem handleUpload_status_shows_blobId_or_error (now : N) (p : Page) (b : Blob) :
  audioBlob (state p) = Some b ->
  (forall resp result,
      ok resp = true ->
      json_body resp = Normal result ->
      (exists success, get_prop result "success" = Normal success /\ truthy success = true) ->
      exists shown,
        get_prop result "blobId" = Normal shown /\
        uploadStatus (state (snd (handleUpload now (Normal resp) p)))
        = "Upload successful! Blob ID: " ++ to_string shown /\
        includes (uploadStatus (state (snd (handleUpload now (Normal resp) p))))
          (to_string shown)) /\
  (forall e,
      uploadStatus (state (snd (handleUpload now (Throw e) p)))
      = "Error uploading to Walrus: " ++ message e /\
      includes (uploadStatus (state (snd (handleUpload now (Throw e) p)))) (message e)) /\
  (forall okb e,
      let o := Normal {| ok := okb; json_body := Throw e |} in
      uploadStatus (state (snd (handleUpload now o p)))
      = "Error uploading to Walrus: " ++ message e /\
      includes (uploadStatus (state (snd (handleUpload now o p)))) (message e)).
Proof.
  intros H. repeat split.
  - intros [okb body] result Hok Hbody (success & Hs & Ht). cbn in Hok, Hbody. subst.
    run_upload H. rewrite Hs; cbn. rewrite Ht; cbn.
    destruct result; try discriminate Hs; cbn; eexists; repeat split;
      apply (includes_suffix "Upload successful! Blob ID: ").
  - run_upload H. reflexivity.
  - run_upload H. apply (includes_suffix "Error uploading to Walrus: ").
  - run_upload H. reflexivity.
  - run_upload H. apply (includes_suffix "Error uploading to Walrus: ").
Qed.

Lemma handleUpload_status_shows_blobId_or_error_witness :
  uploadStatus (state (snd (handleUpload 1700000000000 success_reply recorded_page)))
  = "Upload successful! Blob ID: M4hsZGQ1oCktdzegB6HnI6Mi28S2nqOPHxK-W7_4BUk" /\
  uploadStatus (state (snd (handleUpload 1700000000000 (Throw network_error) recorded_page)))
  = "Error uploading to Walrus: Failed to fetch".
Proof.
  destruct (handleUpload_status_shows_blobId_or_error 1700000000000 recorded_page
              sample_chunk eq_refl) as (Hok & Hthrow & _).
  split.
  - destruct (Hok {| ok := true; json_body := Normal success_result |} success_result
                eq_refl eq_refl
                (ex_intro _ (Some (JBool true)) (conj eq_refl eq_refl)))
      as (shown & Hshown & Hstatus & _).
    injection Hshown as <-. exact Hstatus.
  - exact (proj1 (Hthrow network_error)).
Defined.

(** C9: a run of [handleUpload] on a recording sets [audioBlob] to [null]
    when the upload succeeded and leaves the recording in place on every
    failure (response not ok, [result.success] not truthy, or something
    thrown). *)
Theorem audioBlob_cleared_only_on_success
  (now : N) (o : completion Response) (p : Page) (b : Blob) :
  audioBlob (state p) = Some b ->
  audioBlob (state (snd (handleUpload now o p)))
  = if upload_success o then None else Some b.
Proof.
  intros H. run_upload H.
  split_reply o; auto.
Qed.

Lemma audioBlob_cleared_only_on_success_witness :
  audioBlob (state (snd (handleUpload 1700000000000 success_reply recorded_page))) = None /\
  audioBlob (state (snd (handleUpload 1700000000000 failure_reply recorded_page)))
  = Some sample_chunk /\
  audioBlob (state (snd (handleUpload 1700000000000 (Throw network_error) recorded_page)))
  = Some sample_chunk.
Proof.
  refine (conj _ (conj _ _)).
  - exact (audioBlob_cleared_only_on_success 1700000000000 success_reply
             recorded_page sample_chunk eq_refl).
  - exact (audioBlob_cleared_only_on_success 1700000000000 failure_reply
             recorded_page sample_chunk eq_refl).
  - exact (audioBlob_cleared_only_on_success 1700000000000 (Throw network_error)
             recorded_page sample_chunk eq_refl).
Defined.

(** C10: [handleUpload] run while [audioBlob] is [null] returns after
    setting [uploadStatus] to "No recording to upload."; it sends no request
    and changes no other state cell and no ref. *)
Theorem handleUpload_without_recording (now : N) (o : completion Response) (p : Page) :
  audioBlob (state p) = None ->
  let p' := snd (handleUpload now o p) in
  fst (handleUpload now o p) = Normal tt /\
  uploadStatus (state p') = "No recording to upload." /\
  requests p' = requests p /\
  settled p' = settled p /\
  uploading (state p') = uploading (state p) /\
  audioBlob (state p') = audioBlob (state p) /\
  blobId (state p') = blobId (state p) /\
  showToast (state p') = showToast (state p) /\
  toastType (state p') = toastType (state p) /\
  isRecording (state p') = isRecording (state p) /\
  mediaRecorderRef p' = mediaRecorderRef p /\
  audioChunksRef p' = audioChunksRef p /\
  stop_tasks p' = stop_tasks p.
Proof.
  intros H. unfold handleUpload, handleUpload_sync, bind, read. rewrite H. cbn.
  repeat split. exact H.
Qed.

Lemma handleUpload_without_recording_witness :
  uploadStatus (state (snd (handleUpload 1700000000000 success_reply initial_page)))
  = "No recording to upload." /\
  requests (snd (handleUpload 1700000000000 success_reply initial_page)) = [].
Proof.
  destruct (handleUpload_without_recording 1700000000000 success_reply initial_page eq_refl)
    as (_ & Hstatus & Hrequests & _).
  exact (conj Hstatus Hrequests).
Defined.

(** While an upload runs, the Start and Stop buttons are disabled. *)
Lemma uploading_disables_recording_buttons (s : State) :
  uploading s = true -> start_disabled s = true /\ stop_disabled s = true.
Proof.
  unfold start_disabled, stop_disabled. intros ->. now rewrite !orb_true_r.
Qed.

(** C6: the claim fails on the code.  Pressing Start, Stop, Start and then
    Upload, each while its button is enabled, reaches a page on which
    [isRecording] and [uploading] are both true: the Upload button is
    disabled by [!audioBlob || uploading] only, and the blob of the first
    recording is still in [audioBlob] while the second recording runs. *)
Theorem recording_and_uploading_both_true :
  exists p,
    run upload_while_recording initial_page = Some p /\
    reachable p /\
    isRecording (state p) = true /\
    uploading (state p) = true.
Proof.
  eexists. split; [vm_compute; reflexivity|].
  split; [exists upload_while_recording; vm_compute; reflexivity|].
  repeat split.
Qed.

End AudioRecorderProperties.

(** ** Properties of the user-agent test *)

Module UserAgentProperties.

Import UserAgent.

Lemma isSafari_here (ua : string) : starts_with_ci "safari" ua = true -> isSafari ua = true.
Proof. intros H. destruct ua; cbn in *; [discriminate|]. now rewrite H. Qed.

Lemma isSafari_step (c : ascii) (rest : string) :
  blocked (String c rest) = false ->
  is_line_terminator c = false ->
  isSafari rest = true ->
  isSafari (String c rest) = true.
Proof.
  intros Hb Hl Hr. change (isSafari (String c rest))
    with (starts_with_ci "safari" (String c rest)
          || (negb (blocked (String c rest)) && negb (is_line_terminator c) && isSafari rest)).
  rewrite Hb, Hl, Hr. apply orb_true_r.
Qed.

(** X1: [isSafari] answers true exactly on the user agents the pattern
    describes. *)
Theorem isSafari_iff_matches_pattern (userAgent : string) :
  isSafari userAgent = true <-> matches_pattern userAgent.
Proof.
  split.
  - induction userAgent as [|c ua IH]; intros H.
    + discriminate H.
    + change (starts_with_ci "safari" (String c ua)
              || (negb (blocked (String c ua)) && negb (is_line_terminator c) && isSafari ua)
              = true) in H.
      destruct (starts_with_ci "safari" (String c ua)) eqn:Hs.
      * exists "", (String c ua). repeat split; auto;
          destruct before; discriminate.
      * cbn [orb] in H. apply andb_prop in H as [H Hr]. apply andb_prop in H as [Hb Hl].
        apply negb_true_iff in Hb, Hl.
        destruct (IH Hr) as (skipped & rest & -> & Hrest & Hall).
        exists (String c skipped), rest. split; [reflexivity|]. split; [exact Hrest|].
        intros [|c' before] c0 after Heq; cbn in Heq; injection Heq as -> ->.
        -- now split.
        -- now apply (Hall before).
  - intros (skipped & rest & -> & Hrest & Hall).
    induction skipped as [|c skipped IH]; cbn [append].
    + now apply isSafari_here.
    + destruct (Hall "" c skipped eq_refl) as [Hb Hl].
      apply isSafari_step; auto.
      apply IH. intros before c0 after ->. now apply (Hall (String c before)).
Qed.

End UserAgentProperties.

(** ** Further properties of the route *)

Module RouteFurther.

Import Route RouteSamples RouteProperties.

(** X2: the status of the response is 200, 400 or 500: 200 exactly when the
    upload succeeded, and 400 exactly when the form was read and has no (or
    an empty) audio entry. *)
Theorem status_by_branch (L : Libraries) (request : NextRequest) :
  exists r,
    POST L request = Some r /\
    (status r = 200%Z \/ status r = 400%Z \/ status r = 500%Z) /\
    (status r = 200%Z <-> upload_succeeded (events L request) = true) /\
    (status r = 400%Z <->
     exists fd, formData request = Normal fd /\
                entry_falsy (formData_get "audio" fd) = true).
Proof.
  run_cases L request; eexists; (split; [reflexivity|]); cbn.
  - split; [auto|]. split; [split; discriminate|]. split; eauto.
  - split; [auto|]. split; [split; reflexivity|]. split; [discriminate|].
    intros (fd & Hfd & Hf). destruct HP as (fd' & b & n & raw & H1 & H2 & _).
    rewrite Hfd in H1. injection H1 as <-. rewrite H2 in Hf. discriminate Hf.
  - split; [auto|]. split; [split; discriminate|]. split; [discriminate|].
    intros (fd & Hfd & Hf). destruct HP as (fd' & b & n & raw & H1 & H2 & _).
    rewrite Hfd in H1. injection H1 as <-. rewrite H2 in Hf. discriminate Hf.
  - split; [auto|]. split; [split; discriminate|]. split; [discriminate|].
    intros (fd & Hfd & Hf). destruct Hearly as [H|(fd' & H1 & H2)].
    + rewrite Hfd in H. discriminate H.
    + rewrite Hfd in H1. injection H1 as <-. rewrite H2 in Hf. discriminate Hf.
Qed.

(** X3: the [blobId] of the response is the string a [writeBlob] call
    returned, and there is none unless a call returned. *)
Theorem returned_blobId_is_writeBlob_result
  (L : Libraries) (request : NextRequest) (id : string) :
  (exists r, POST L request = Some r /\ assoc "blobId" (body r) = Some (JStr id)) <->
  (exists args, In (EWriteBlob args (Normal id)) (events L request)).
Proof.
  run_cases L request; split.
  all: try (intros (r & [= <-] & H); cbn in H; discriminate H).
  all: try (intros (a & [H|[H|[]]]); discriminate H).
  all: try (intros (a & []); fail).
  - intros (r & [= <-] & H). cbn in H. injection H as <-. eexists. left. reflexivity.
  - intros (a & [H|[H|[]]]); [|discriminate H]. injection H as _ <-. eexists. split; reflexivity.
  - intros (a & [H|[]]). discriminate H.
Qed.

(** X4: when the [writeBlob] call throws, the route answers with status 500
    and the message of that exception. *)
Theorem writeBlob_exception_is_reported
  (L : Libraries) (request : NextRequest) (args : WriteBlobArgs (Keypair L)) (e : thrown) :
  In (EWriteBlob args (Throw e)) (events L request) ->
  POST L request
  = Some {| status := 500;
            body := [("error", JStr ("Failed to upload to Walrus: " ++ message e))] |}.
Proof.
  run_cases L request.
  - intros [].
  - intros [H|[H|[]]]; discriminate H.
  - intros [H|[H|[]]]; [|discriminate H]. now injection H as _ <-.
  - intros [H|[]]. discriminate H.
Qed.

Lemma writeBlob_exception_is_reported_witness :
  POST failing_libraries sample_request
  = Some {| status := 500;
            body := [("error",
                      JStr "Failed to upload to Walrus: Not enough WAL to pay for storage")] |}.
Proof.
  apply (writeBlob_exception_is_reported failing_libraries sample_request
           {| blob := blob_bytes sample_blob; deletable := false; epochs := 3;
              signer := [Byte.x72; Byte.x2c] |}
           {| message := "Not enough WAL to pay for storage" |}).
  left. reflexivity.
Defined.

(** X5: the route calls [writeBlob] at most once for a request, and only
    when the form was read and holds a file under "audio". *)
Theorem writeBlob_called_at_most_once (L : Libraries) (request : NextRequest) :
  (length (writeBlob_calls (events L request)) <= 1)%nat /\
  (writeBlob_calls (events L request) <> [] ->
   exists fd b name,
     formData request = Normal fd /\
     formData_get "audio" fd = Some (EntryFile b name)).
Proof.
  run_cases L request; split; auto; try (intros H; now elim H).
  all: intros _; destruct HP as (fd & b & n & raw & H1 & H2 & _); eauto.
Qed.

Lemma writeBlob_called_at_most_once_witness :
  exists fd b name,
    formData sample_request = Normal fd /\
    formData_get "audio" fd = Some (EntryFile b name).
Proof.
  apply (proj2 (writeBlob_called_at_most_once ok_libraries sample_request)).
  discriminate.
Defined.

(** X6: an "audio" field that is a text is not uploaded: the empty text is
    answered like a missing field, with status 400; any other text makes
    [arrayBuffer] fail, which is answered with status 500. *)
Theorem text_audio_field_is_rejected
  (L : Libraries) (request : NextRequest) (fd : FormData) (s : string) :
  formData request = Normal fd ->
  formData_get "audio" fd = Some (EntryString s) ->
  writeBlob_calls (events L request) = [] /\
  POST L request
  = Some (if String.eqb s ""
          then {| status := 400; body := [("error", JStr "No audio blob provided")] |}
          else {| status := 500;
                  body := [("error",
                            JStr ("Failed to upload to Walrus: " ++ message not_a_function))] |}).
Proof.
  intros Hfd Hget. unfold POST, events, POST_M, POST_try.
  rewrite Hfd; cbn. rewrite Hget; cbn.
  destruct (String.eqb s ""); cbn; split; reflexivity.
Qed.

Lemma text_audio_field_is_rejected_witness :
  writeBlob_calls (events ok_libraries text_request) = [] /\
  POST ok_libraries text_request
  = Some {| status := 500;
            body := [("error",
                      JStr "Failed to upload to Walrus: audioBlob.arrayBuffer is not a function")] |}.
Proof.
  exact (text_audio_field_is_rejected ok_libraries text_request _ "hello" eq_refl eq_refl).
Defined.

(** X7: the route looks at nothing of a request but the bytes of the file
    under "audio": two requests whose files have the same bytes get the same
    storage call and the same response, whatever the file names, the types
    and the other fields. *)
Theorem response_depends_on_audio_bytes_only
  (L : Libraries) (request1 request2 : NextRequest)
  (fd1 fd2 : FormData) (b1 b2 : Blob) (name1 name2 : string) :
  formData request1 = Normal fd1 ->
  formData request2 = Normal fd2 ->
  formData_get "audio" fd1 = Some (EntryFile b1 name1) ->
  formData_get "audio" fd2 = Some (EntryFile b2 name2) ->
  blob_bytes b1 = blob_bytes b2 ->
  events L request1 = events L request2 /\ POST L request1 = POST L request2.
Proof.
  intros H1 H2 G1 G2 Hb. unfold POST, events, POST_M, POST_try.
  rewrite H1, H2; cbn. rewrite G1, G2; cbn. rewrite Hb. split; reflexivity.
Qed.

Lemma response_depends_on_audio_bytes_only_witness :
  events ok_libraries sample_request = events ok_libraries renamed_request /\
  POST ok_libraries sample_request = POST ok_libraries renamed_request.
Proof.
  exact (response_depends_on_audio_bytes_only ok_libraries sample_request renamed_request
           _ _ sample_blob _ _ _ eq_refl eq_refl eq_refl eq_refl eq_refl).
Defined.

End RouteFurther.

(** ** Properties of recording *)

Module RecordingProperties.

Import AudioRecorder RecorderSamples.

Lemma find_first {A : Type} (f : A -> bool) (l : list A) :
  match find f l with
  | Some x =>
      exists before after,
        l = (before ++ x :: after)%list /\ f x = true /\
        forall y, In y before -> f y = false
  | None => forall y, In y l -> f y = false
  end.
Proof.
  induction l as [|a l IH]; cbn.
  - intros y [].
  - destruct (f a) eqn:Ha.
    + exists [], l. repeat split; auto. intros y [].
    + destruct (find f l) as [x|].
      * destruct IH as (before & after & -> & Hx & Hb).
        exists (a :: before), after. repeat split; auto.
        intros y [<-|Hy]; auto.
      * intros y [<-|Hy]; auto.
Qed.

(** X8: [getSupportedMimeType] returns the first of the candidate types of
    the browser family that the recorder supports, and the empty string when
    there is no [MediaRecorder] or it supports none of them; on Safari the
    candidates are MP4 and AAC, elsewhere WebM with Opus, WebM and Ogg. *)
Theorem getSupportedMimeType_first_supported (env : MediaEnv) :
  let candidates :=
    if isSafari env
    then ["audio/mp4"; "audio/aac"]
    else ["audio/webm;codecs=opus"; "audio/webm"; "audio/ogg"] in
  (getSupportedMimeType env = "" /\
   forall type, In type candidates ->
                hasMediaRecorder env && isTypeSupported env type = false) \/
  (exists before after,
      candidates = (before ++ getSupportedMimeType env :: after)%list /\
      hasMediaRecorder env = true /\
      isTypeSupported env (getSupportedMimeType env) = true /\
      forall type, In type before -> isTypeSupported env type = false).
Proof.
  cbn zeta. unfold getSupportedMimeType.
  match goal with
  | |- context [find ?f ?l] => pose proof (find_first f l) as H; destruct (find f l) as [t|]
  end.
  - right. destruct H as (before & after & Heq & Ht & Hb).
    apply andb_prop in Ht as [Hm Ht].
    exists before, after. repeat split; auto.
    intros type Hin. specialize (Hb type Hin). now rewrite Hm in Hb.
  - left. split; auto.
Qed.

Ltac run_start env :=
  unfold startRecording, try_catch, bind, lift, checkRequestMicrophonePermission, ret;
  cbn.

(** X9: when [getUserMedia], the [MediaRecorder] constructor and [start]
    all return, [startRecording] leaves [isRecording] true, the status line
    empty, a recording recorder with the chosen type in [mediaRecorderRef]
    and no chunks; the earlier [audioBlob] stays. *)
Theorem startRecording_starts (env : MediaEnv) (p : Page) :
  getUserMedia env = Normal tt ->
  newMediaRecorder env
    (if String.eqb (getSupportedMimeType env) "" then None
     else Some (getSupportedMimeType env)) = Normal tt ->
  recorder_start env = Normal tt ->
  let p' := snd (startRecording env p) in
  isRecording (state p') = true /\
  uploadStatus (state p') = "" /\
  mediaRecorderRef p'
  = Some {| mimeType := getSupportedMimeType env; rec_state := Recording |} /\
  audioChunksRef p' = [] /\
  audioBlob (state p') = audioBlob (state p).
Proof.
  intros H1 H2 H3. run_start env. rewrite H1; cbn. rewrite H2; cbn. rewrite H3; cbn.
  repeat split.
Qed.

Lemma startRecording_starts_witness :
  let p' := snd (startRecording chrome_env recorded_page) in
  isRecording (state p') = true /\
  uploadStatus (state p') = "" /\
  mediaRecorderRef p' = Some {| mimeType := "audio/webm"; rec_state := Recording |} /\
  audioChunksRef p' = [] /\
  audioBlob (state p') = Some sample_chunk.
Proof.
  exact (startRecording_starts chrome_env recorded_page eq_refl eq_refl eq_refl).
Defined.

(** X10: when [getUserMedia] or the [MediaRecorder] constructor throws,
    [startRecording] does not throw: it changes nothing on the page but the
    status line, which becomes "Failed to access microphone: " and the
    message. *)
Theorem startRecording_refused (env : MediaEnv) (p : Page) (e : thrown) :
  getUserMedia env = Throw e \/
  (getUserMedia env = Normal tt /\
   newMediaRecorder env
     (if String.eqb (getSupportedMimeType env) "" then None
      else Some (getSupportedMimeType env)) = Throw e) ->
  startRecording env p
  = (Normal tt, snd (setUploadStatus ("Failed to access microphone: " ++ message e) p)).
Proof.
  intros [H1|[H1 H2]]; run_start env; rewrite H1; cbn; [|rewrite H2; cbn]; reflexivity.
Qed.

Lemma startRecording_refused_witness :
  startRecording denied_env recorded_page
  = (Normal tt,
     snd (setUploadStatus "Failed to access microphone: Permission denied" recorded_page)).
Proof.
  apply (startRecording_refused denied_env recorded_page {| message := "Permission denied" |}).
  left. reflexivity.
Defined.

(** X11: when [start] throws on the new recorder, [startRecording] reports it
    in the status line and leaves [isRecording] and [audioBlob] as they
    were, but the new, inactive recorder is already in [mediaRecorderRef]
    and the chunks are already emptied. *)
Theorem startRecording_start_throws (env : MediaEnv) (p : Page) (e : thrown) :
  getUserMedia env = Normal tt ->
  newMediaRecorder env
    (if String.eqb (getSupportedMimeType env) "" then None
     else Some (getSupportedMimeType env)) = Normal tt ->
  recorder_start env = Throw e ->
  let p' := snd (startRecording env p) in
  fst (startRecording env p) = Normal tt /\
  uploadStatus (state p') = "Failed to access microphone: " ++ message e /\
  isRecording (state p') = isRecording (state p) /\
  audioBlob (state p') = audioBlob (state p) /\
  mediaRecorderRef p'
  = Some {| mimeType := getSupportedMimeType env; rec_state := Inactive |} /\
  audioChunksRef p' = [].
Proof.
  intros H1 H2 H3. run_start env. rewrite H1; cbn. rewrite H2; cbn. rewrite H3; cbn.
  repeat split.
Qed.

Lemma startRecording_start_throws_witness :
  let p' := snd (startRecording broken_recorder_env recorded_page) in
  uploadStatus (state p') = "Failed to access microphone: The MediaRecorder failed to start" /\
  isRecording (state p') = false /\
  audioBlob (state p') = Some sample_chunk /\
  mediaRecorderRef p' = Some {| mimeType := "audio/webm"; rec_state := Inactive |} /\
  audioChunksRef p' = [].
Proof.
  exact (proj2 (startRecording_start_throws broken_recorder_env recorded_page
                  {| message := "The MediaRecorder failed to start" |}
                  eq_refl eq_refl eq_refl)).
Defined.

(** X12: [stopRecording] does nothing at all when there is no recorder; on a
    recording recorder it turns [isRecording] off, stops the recorder and
    queues one [stop] event with the type of that recorder, while
    [audioBlob] waits for the event. *)
Theorem stopRecording_effect (p : Page) :
  (mediaRecorderRef p = None -> stopRecording p = (Normal tt, p)) /\
  (forall r,
      mediaRecorderRef p = Some r ->
      rec_state r = Recording ->
      let p' := snd (stopRecording p) in
      isRecording (state p') = false /\
      mediaRecorderRef p' = Some {| mimeType := mimeType r; rec_state := Inactive |} /\
      stop_tasks p' = (stop_tasks p ++ [mimeType r])%list /\
      audioBlob (state p') = audioBlob (state p) /\
      audioChunksRef p' = audioChunksRef p).
Proof.
  unfold stopRecording, recorder_stop, bind, read. split.
  - intros ->. reflexivity.
  - intros r -> Hr. rewrite Hr. cbn. repeat split.
Qed.

Lemma stopRecording_effect_witness :
  stopRecording initial_page = (Normal tt, initial_page) /\
  stop_tasks (snd (stopRecording recording_page)) = ["audio/webm"] /\
  isRecording (state (snd (stopRecording recording_page))) = false.
Proof.
  split.
  - exact (proj1 (stopRecording_effect initial_page) eq_refl).
  - destruct (proj2 (stopRecording_effect recording_page) _ eq_refl eq_refl)
      as (H1 & _ & H2 & _).
    exact (conj H2 H1).
Defined.

(** X13: stopping twice is stopping once: the second [stopRecording] finds
    the recorder inactive and queues no second [stop] event. *)
Theorem stopRecording_idempotent (p : Page) :
  snd (stopRecording (snd (stopRecording p))) = snd (stopRecording p).
Proof.
  unfold stopRecording, recorder_stop, bind, read.
  destruct p as [s [[mime [|]]|] chunks sent done tasks]; reflexivity.
Qed.

Lemma run_app (l1 l2 : list Action) (p : Page) :
  run (l1 ++ l2) p = match run l1 p with Some q => run l2 q | None => None end.
Proof.
  revert p. induction l1 as [|a l1 IH]; intros p; cbn; [reflexivity|].
  destruct (step a p); auto.
Qed.

(** The chunks a recorder delivers, while it records or while its [stop]
    event is pending, are appended to [audioChunksRef] in order. *)
Lemma run_chunks (chunks : list Blob) (p : Page) :
  (forall data, enabled (DataAvailable data) p = true) ->
  run (map DataAvailable chunks) p
  = Some (snd (set_audioChunksRef (audioChunksRef p ++ chunks) p)).
Proof.
  revert p. induction chunks as [|c chunks IH]; intros p He; cbn.
  - rewrite app_nil_r. now destruct p.
  - unfold step. rewrite He. cbn.
    rewrite IH; cbn; [|exact He]. now rewrite <- app_assoc.
Qed.

(** One recording from Start to the [stop] event, with nothing else in
    between: the recorder may deliver chunks while it records ([before]) and
    delivers the rest after the click on Stop ([after]), ahead of its [stop]
    event.  [start()] is called without a time slice, so in the browser the
    data of a recording all arrive after the click. *)
Lemma recording_run (env : MediaEnv) (before after : list Blob) (p : Page) :
  start_disabled (state p) = false ->
  stop_tasks p = [] ->
  getUserMedia env = Normal tt ->
  newMediaRecorder env
    (if String.eqb (getSupportedMimeType env) "" then None
     else Some (getSupportedMimeType env)) = Normal tt ->
  recorder_start env = Normal tt ->
  exists p',
    run (ClickStart env :: map DataAvailable before
           ++ ClickStop :: map DataAvailable after ++ [StopFired]) p = Some p' /\
    audioBlob (state p')
    = Some {| blob_bytes := concat (map blob_bytes (before ++ after));
              blob_type := if String.eqb (getSupportedMimeType env) ""
                           then "audio/webm" else getSupportedMimeType env |} /\
    isRecording (state p') = false /\
    uploading (state p') = false /\
    requests p' = requests p.
Proof.
  intros Hd Ht H1 H2 H3.
  apply orb_false_elim in Hd as [Hrec Hup].
  cbn [run]. unfold step at 1. unfold enabled, start_disabled. rewrite Hrec, Hup. cbn.
  unfold startRecording, try_catch, bind, lift, checkRequestMicrophonePermission, ret; cbn.
  rewrite H1; cbn. rewrite H2; cbn. rewrite H3; cbn.
  rewrite run_app, run_chunks by reflexivity. cbn.
  unfold step at 1. unfold enabled, stop_disabled; cbn. rewrite Hup, Ht. cbn.
  rewrite run_app, run_chunks by reflexivity. cbn.
  eexists. split; [reflexivity|]. cbn. repeat split.
Qed.

(** X14: a recording run from Start to Stop and the [stop] event, over the
    chunks the recorder delivers before and after the click on Stop, leaves
    in [audioBlob] all the delivered bytes, concatenated in order, under the
    type chosen at the start, or "audio/webm" when none was; chunks of an
    earlier recording are not in it.  With [start()] called without a time
    slice the recorder delivers its data after the click on Stop, which is
    the case of no chunks before. *)
Theorem recording_round_trip (env : MediaEnv) (before after : list Blob) (p : Page) :
  start_disabled (state p) = false ->
  stop_tasks p = [] ->
  getUserMedia env = Normal tt ->
  newMediaRecorder env
    (if String.eqb (getSupportedMimeType env) "" then None
     else Some (getSupportedMimeType env)) = Normal tt ->
  recorder_start env = Normal tt ->
  exists p',
    run (ClickStart env :: map DataAvailable before
           ++ ClickStop :: map DataAvailable after ++ [StopFired]) p = Some p' /\
    audioBlob (state p')
    = Some {| blob_bytes := concat (map blob_bytes (before ++ after));
              blob_type := if String.eqb (getSupportedMimeType env) ""
                           then "audio/webm" else getSupportedMimeType env |} /\
    isRecording (state p') = false.
Proof.
  intros Hd Ht H1 H2 H3.
  destruct (recording_run env before after p Hd Ht H1 H2 H3)
    as (p' & Hrun & Hblob & Hrec & _).
  eauto.
Qed.

Lemma recording_round_trip_witness :
  exists p',
    run [ClickStart safari_env; ClickStop; DataAvailable sample_chunk;
         DataAvailable second_chunk; StopFired] recorded_page = Some p' /\
    audioBlob (state p')
    = Some {| blob_bytes := [Byte.x1a; Byte.x45; Byte.xdf; Byte.xa3; Byte.x42; Byte.x86];
              blob_type := "audio/mp4" |} /\
    isRecording (state p') = false.
Proof.
  exact (recording_round_trip safari_env [] [sample_chunk; second_chunk] recorded_page
           eq_refl eq_refl eq_refl eq_refl eq_refl).
Defined.

End RecordingProperties.

(** ** Further properties of uploading *)

Module UploadProperties.

Import AudioRecorder RecorderSamples View AudioRecorderProperties.

(** X15: [handleUpload] leaves a recording alone: whatever the outcome, it
    changes neither [isRecording] nor the recorder, the chunks or the queued
    [stop] events. *)
Theorem handleUpload_keeps_recording (now : N) (o : completion Response) (p : Page) :
  let p' := snd (handleUpload now o p) in
  isRecording (state p') = isRecording (state p) /\
  mediaRecorderRef p' = mediaRecorderRef p /\
  audioChunksRef p' = audioChunksRef p /\
  stop_tasks p' = stop_tasks p.
Proof.
  destruct (audioBlob (state p)) as [b|] eqn:H.
  - run_upload H. split_reply o; repeat split.
  - unfold handleUpload, handleUpload_sync, bind, read. rewrite H. cbn. repeat split.
Qed.

(** X16: after [handleUpload] on a recording the toast is up and agrees with
    the status line: after a success the success toast over a green line,
    after any failure the failure toast over a red line. *)
Theorem toast_and_colour_follow_outcome
  (now : N) (o : completion Response) (p : Page) (b : Blob) :
  audioBlob (state p) = Some b ->
  let s' := state (snd (handleUpload now o p)) in
  status_shown s' = true /\
  if upload_success o
  then status_class s' = "text-green-600" /\ exists copy, toast s' = SuccessToast copy
  else status_class s' = "text-red-600" /\ toast s' = FailureToast.
Proof.
  intros H. run_upload H.
  split_reply o; unfold status_shown, status_class, toast; cbn; repeat split; eauto.
Qed.

Lemma toast_and_colour_follow_outcome_witness :
  status_class (state (snd (handleUpload 1700000000000 failure_reply recorded_page)))
  = "text-red-600" /\
  toast (state (snd (handleUpload 1700000000000 failure_reply recorded_page)))
  = FailureToast.
Proof.
  exact (proj2 (toast_and_colour_follow_outcome 1700000000000 failure_reply
                  recorded_page sample_chunk eq_refl)).
Defined.

(** X17: what can be copied after [handleUpload] on a recording.  After a
    failure [blobId] is [null], also when an earlier upload had left an
    identifier, and [copyBlobId] writes nothing.  After a success whose
    result carries a non-empty string as [blobId], the toast shows the copy
    button and [copyBlobId] writes exactly that string; when the result has
    no [blobId], the success toast has no copy button and nothing is
    written. *)
Theorem copyBlobId_after_upload (now : N) (p : Page) (b : Blob) :
  audioBlob (state p) = Some b ->
  (forall o,
      upload_success o = false ->
      let s' := state (snd (handleUpload now o p)) in
      blobId s' = Some JNull /\ copyBlobId s' = None) /\
  (forall fields,
      truthy (assoc "success" fields) = true ->
      let s' :=
        state (snd (handleUpload now
                      (Normal {| ok := true; json_body := Normal (JObj fields) |}) p)) in
      blobId s' = assoc "blobId" fields /\
      match assoc "blobId" fields with
      | Some (JStr id) =>
          if String.eqb id ""
          then copyBlobId s' = None /\ toast s' = SuccessToast false
          else copyBlobId s' = Some id /\ toast s' = SuccessToast true
      | None => copyBlobId s' = None /\ toast s' = SuccessToast false
      | Some _ => True
      end).
Proof.
  intros H. split.
  - intros o Ho. revert Ho. run_upload H.
    split_reply o; intros Ho; try discriminate Ho; split; reflexivity.
  - intros fields Hs. run_upload H. rewrite Hs. cbn.
    split; [reflexivity|].
    unfold copyBlobId, toast; cbn.
    destruct (assoc "blobId" fields) as [[| | |id| |]|]; cbn; auto.
    destruct (String.eqb id ""); cbn; split; reflexivity.
Qed.

Lemma copyBlobId_after_upload_witness :
  copyBlobId (state (snd (handleUpload 1700000000000 success_reply recorded_page)))
  = Some "M4hsZGQ1oCktdzegB6HnI6Mi28S2nqOPHxK-W7_4BUk" /\
  copyBlobId (state (snd (handleUpload 1700000000000 bare_success_reply recorded_page)))
  = None /\
  copyBlobId (state (snd (handleUpload 1700000000000 failure_reply recorded_page)))
  = None.
Proof.
  destruct (copyBlobId_after_upload 1700000000000 recorded_page sample_chunk eq_refl)
    as [Hfail Hok].
  refine (conj _ (conj _ _)).
  - exact (proj1 (proj2 (Hok _ (eq_refl : truthy (assoc "success"
             [("success", JBool true);
              ("blobId", JStr "M4hsZGQ1oCktdzegB6HnI6Mi28S2nqOPHxK-W7_4BUk");
              ("message", JStr "Audio uploaded successfully to Walrus")]) = true)))).
  - exact (proj1 (proj2 (Hok [("success", JBool true)] eq_refl))).
  - exact (proj2 (Hfail failure_reply eq_refl)).
Defined.

End UploadProperties.

(** ** Invariants of the interleaved handlers *)

Module InterleavingProperties.

Import AudioRecorder Interleaving AudioRecorderProperties.

Lemma invariant_initial : invariant initial_page.
Proof. repeat split; [constructor | discriminate]. Qed.

Lemma resume_effect (o : completion Response) (p : Page) :
  let p' := snd (handleUpload_resume o p) in
  uploading (state p') = false /\
  requests p' = requests p /\
  settled p' = settled p /\
  isRecording (state p') = isRecording (state p) /\
  mediaRecorderRef p' = mediaRecorderRef p.
Proof.
  unfold handleUpload_resume, try_finally, try_catch, bind, lift. cbn.
  split_reply o; repeat split.
Qed.

Lemma invariant_turn (t : Turn) (p : Page) :
  invariant p -> allowed t p = true -> invariant (snd (turn t p)).
Proof.
  intros (Hn & Hw & Hr) Ha. destruct t as [env| |now|o|data|mime|]; cbn [turn].
  - unfold startRecording, try_catch, bind, lift, checkRequestMicrophonePermission, ret; cbn.
    destruct (getUserMedia env); cbn; [|now repeat split].
    destruct (newMediaRecorder env _); cbn; [|now repeat split].
    destruct (recorder_start env); cbn; repeat split; auto; intros _; unfold with_state; cbn; congruence.
  - unfold stopRecording, recorder_stop, bind, read.
    destruct (mediaRecorderRef p) as [[mime [|]]|] eqn:Href; cbn;
      repeat split; auto; intros Hrec; unfold with_state in *; cbn in *;
      try congruence; now apply Hr in Hrec.
  - unfold allowed, upload_disabled in Ha.
    destruct (audioBlob (state p)) as [b|] eqn:Hb; [|discriminate Ha].
    destruct (uploading (state p)) eqn:Hu; [discriminate Ha|].
    unfold handleUpload_sync, bind, read. rewrite Hb. cbn.
    unfold invariant; cbn. split; [|split].
    + rewrite length_app. cbn. lia.
    + apply Forall_app. split; [exact Hw|]. constructor; [|constructor].
      repeat split. now exists b, now.
    + exact Hr.
  - unfold allowed in Ha. apply Nat.ltb_lt in Ha.
    pose proof (resume_effect o (snd (settle_one p))) as (H1 & H2 & H3 & H4 & H5).
    unfold bind. cbn in *.
    repeat split.
    + rewrite H1, H2, H3. destruct (uploading (state p)); lia.
    + now rewrite H2.
    + rewrite H4, H5. exact Hr.
  - unfold ondataavailable, bind, read. cbn. repeat split; auto.
  - unfold onstop, bind, read. cbn. repeat split; auto.
  - cbn. repeat split; auto.
Qed.

Lemma reachable_invariant (p : Page) : reachable p -> invariant p.
Proof.
  induction 1 as [|t p Hp IH Ha]; [exact invariant_initial|].
  now apply invariant_turn.
Qed.

(** X18: however the handlers, the recorder callbacks and the settlements
    interleave, at most one upload request is in flight, and one is in
    flight exactly while [uploading] is true. *)
Theorem single_upload_in_flight (p : Page) :
  reachable p ->
  in_flight p = (if uploading (state p) then 1 else 0) /\ in_flight p <= 1.
Proof.
  intros H. destruct (reachable_invariant p H) as (Hn & _ & _).
  unfold in_flight. destruct (uploading (state p)); lia.
Qed.

(** X19: every request the component ever sends is a POST to
    /api/upload-walrus whose form has the one field "audio", a file named
    "recording-", the time in decimal, ".webm". *)
Theorem requests_well_formed (p : Page) :
  reachable p -> Forall well_formed (requests p).
Proof. intros H. exact (proj1 (proj2 (reachable_invariant p H))). Qed.

(** X20: a click on Stop, whenever the button is enabled, finds a recorder
    and turns [isRecording] off. *)
Theorem stop_click_always_stops (p : Page) :
  reachable p ->
  allowed StopClicked p = true ->
  isRecording (state (snd (turn StopClicked p))) = false.
Proof.
  intros H Ha. destruct (reachable_invariant p H) as (_ & _ & Hr).
  unfold allowed, stop_disabled in Ha.
  destruct (isRecording (state p)) eqn:Hrec; [|discriminate Ha].
  specialize (Hr eq_refl).
  cbn [turn]. unfold stopRecording, recorder_stop, bind, read.
  destruct (mediaRecorderRef p) as [[mime [|]]|]; [reflexivity|reflexivity|now elim Hr].
Qed.

Lemma play_reachable (l : list Turn) (p q : Page) :
  reachable p -> play l p = Some q -> reachable q.
Proof.
  revert p. induction l as [|t l IH]; intros p Hp; cbn.
  - now intros [= <-].
  - destruct (allowed t p) eqn:Ha; [|discriminate]. apply IH. now apply reach_turn.
Qed.

Lemma single_upload_in_flight_witness :
  in_flight RecorderSamples.uploading_page = 1 /\
  in_flight RecorderSamples.uploading_page <= 1.
Proof.
  apply (single_upload_in_flight RecorderSamples.uploading_page).
  apply (play_reachable RecorderSamples.upload_session initial_page);
    [apply reach_initial | reflexivity].
Defined.

Lemma requests_well_formed_witness :
  Forall well_formed (requests RecorderSamples.uploading_page).
Proof.
  apply (requests_well_formed RecorderSamples.uploading_page).
  apply (play_reachable RecorderSamples.upload_session initial_page);
    [apply reach_initial | reflexivity].
Defined.

Lemma stop_click_always_stops_witness :
  isRecording
    (state (snd (turn StopClicked (snd (turn (StartResumes chrome_env) initial_page)))))
  = false.
Proof.
  apply (stop_click_always_stops (snd (turn (StartResumes chrome_env) initial_page)));
    [apply reach_turn; [apply reach_initial | reflexivity] | reflexivity].
Defined.

End InterleavingProperties.

(** ** The component and the route together *)

Module EndToEnd.

Import AudioRecorder RecorderSamples Transport AudioRecorderProperties.

(** The answers of the route to a request of the component: the form holds
    a file, so the route either uploads its bytes or reports an exception;
    it never answers that the audio is missing. *)
Lemma deliver_cases (L : Route.Libraries) (b : Blob) (now : N) :
  let request := upload_request b now in
  (exists args id,
      Route.blob args = blob_bytes b /\
      route_events L request
      = [Route.EWriteBlob args (Normal id);
         Route.EConsoleLog "Audio uploaded to Walrus with blobId:" id] /\
      deliver L request
      = Normal {| ok := true;
                  json_body :=
                    Normal (JObj [("success", JBool true);
                                  ("blobId", JStr id);
                                  ("message", JStr "Audio uploaded successfully to Walrus")]) |}) \/
  (exists e,
      Route.caught (route_events L request) = [e] /\
      (forall args, In args (Route.writeBlob_calls (route_events L request)) ->
                    Route.blob args = blob_bytes b) /\
      deliver L request
      = Normal {| ok := false;
                  json_body :=
                    Normal (JObj [("error",
                                   JStr ("Failed to upload to Walrus: " ++ message e))]) |}).
Proof.
  cbn zeta. unfold deliver, route_events, Route.POST, Route.events.
  destruct (RouteProperties.POST_M_Run L
              {| Route.formData := Normal (req_body (upload_request b now)) |})
    as [fd Hfd Hfalsy|args id HP|args e HP|e Hearly]; cbn.
  - cbn in Hfd. injection Hfd as <-. discriminate Hfalsy.
  - left. exists args, id. repeat split.
    destruct HP as (fd & b' & n & raw & H1 & H2 & _ & _ & ->). cbn in *.
    injection H1 as <-. cbn in H2. now injection H2 as <- _.
  - right. exists e. repeat split.
    intros a [<-|[]].
    destruct HP as (fd & b' & n & raw & H1 & H2 & _ & _ & ->). cbn in *.
    injection H1 as <-. cbn in H2. now injection H2 as <- _.
  - right. exists e. repeat split. intros a [].
Qed.

(** X21: the upload from end to end.  When the component sends its recording
    and the route answers, either the route passed the bytes of the
    recording to [writeBlob], which returned an identifier, and the component
    shows that identifier, keeps it in [blobId] and drops the recording; or
    the route caught an exception, and the component shows
    "Upload failed: Failed to upload to Walrus: " with its message and keeps
    the recording.  The route's "No audio blob provided" never comes back. *)
Theorem upload_end_to_end (L : Route.Libraries) (now : N) (p : Page) (b : Blob) :
  audioBlob (state p) = Some b ->
  let request := upload_request b now in
  let p' := snd (handleUpload now (deliver L request) p) in
  (exists args id,
      Route.blob args = blob_bytes b /\
      In (Route.EWriteBlob args (Normal id)) (route_events L request) /\
      uploadStatus (state p') = "Upload successful! Blob ID: " ++ id /\
      blobId (state p') = Some (JStr id) /\
      audioBlob (state p') = None) \/
  (exists e,
      Route.caught (route_events L request) = [e] /\
      uploadStatus (state p')
      = "Upload failed: Failed to upload to Walrus: " ++ message e /\
      blobId (state p') = Some JNull /\
      audioBlob (state p') = Some b).
Proof.
  intros H. cbn zeta.
  destruct (deliver_cases L b now) as [(args & id & Hb & Hev & ->)|(e & Hc & _ & ->)].
  - left. exists args, id. rewrite Hev. run_upload H.
    repeat split; auto.
  - right. exists e. run_upload H. repeat split; auto.
Qed.

Lemma upload_end_to_end_witness :
  let request := upload_request sample_chunk 1700000000000 in
  let p' := snd (handleUpload 1700000000000 (deliver Route.ok_libraries request)
                   recorded_page) in
  (exists args id,
      Route.blob args = blob_bytes sample_chunk /\
      In (Route.EWriteBlob args (Normal id)) (route_events Route.ok_libraries request) /\
      uploadStatus (state p') = "Upload successful! Blob ID: " ++ id /\
      blobId (state p') = Some (JStr id) /\
      audioBlob (state p') = None) \/
  (exists e,
      Route.caught (route_events Route.ok_libraries request) = [e] /\
      uploadStatus (state p')
      = "Upload failed: Failed to upload to Walrus: " ++ message e /\
      blobId (state p') = Some JNull /\
      audioBlob (state p') = Some sample_chunk).
Proof.
  exact (upload_end_to_end Route.ok_libraries 1700000000000 recorded_page sample_chunk
           eq_refl).
Defined.

(** X22: from the microphone to the storage network.  After a recording
    run from Start to Stop and the [stop] event, over the chunks the recorder
    delivers before and after the click on Stop, the request [handleUpload]
    sends carries the recording, and every [writeBlob] call the route makes
    for that request receives all the delivered bytes, concatenated in
    order. *)
Theorem recorded_bytes_reach_writeBlob
  (L : Route.Libraries) (env : MediaEnv) (before after : list Blob) (now : N) (p : Page) :
  start_disabled (state p) = false ->
  stop_tasks p = [] ->
  getUserMedia env = Normal tt ->
  newMediaRecorder env
    (if String.eqb (getSupportedMimeType env) "" then None
     else Some (getSupportedMimeType env)) = Normal tt ->
  recorder_start env = Normal tt ->
  exists p' b,
    run (ClickStart env :: map DataAvailable before
           ++ ClickStop :: map DataAvailable after ++ [StopFired]) p = Some p' /\
    audioBlob (state p') = Some b /\
    requests (snd (handleUpload_sync now p'))
    = (requests p ++ [upload_request b now])%list /\
    forall args,
      In args (Route.writeBlob_calls (route_events L (upload_request b now))) ->
      Route.blob args = concat (map blob_bytes (before ++ after)).
Proof.
  intros Hd Ht H1 H2 H3.
  destruct (RecordingProperties.recording_run env before after p Hd Ht H1 H2 H3)
    as (p' & Hrun & Hblob & _ & _ & Hreq).
  eexists p', _. split; [exact Hrun|]. split; [exact Hblob|]. split.
  - unfold handleUpload_sync, bind, read. rewrite Hblob. cbn. now rewrite Hreq.
  - intros args Hin.
    destruct (deliver_cases L
                {| blob_bytes := concat (map blob_bytes (before ++ after));
                   blob_type := if String.eqb (getSupportedMimeType env) ""
                                then "audio/webm" else getSupportedMimeType env |} now)
      as [(a & id & Hb & Hev & _)|(e & _ & Hall & _)].
    + rewrite Hev in Hin. destruct Hin as [<-|[]]. exact Hb.
    + exact (Hall args Hin).
Qed.

Lemma recorded_bytes_reach_writeBlob_witness :
  exists p' b,
    run [ClickStart chrome_env; ClickStop; DataAvailable sample_chunk;
         DataAvailable second_chunk; StopFired] initial_page = Some p' /\
    audioBlob (state p') = Some b /\
    requests (snd (handleUpload_sync 1700000000000 p'))
    = [upload_request b 1700000000000] /\
    forall args,
      In args (Route.writeBlob_calls
                 (route_events Route.ok_libraries (upload_request b 1700000000000))) ->
      Route.blob args = [Byte.x1a; Byte.x45; Byte.xdf; Byte.xa3; Byte.x42; Byte.x86].
Proof.
  exact (recorded_bytes_reach_writeBlob Route.ok_libraries chrome_env
           [] [sample_chunk; second_chunk] 1700000000000 initial_page
           eq_refl eq_refl eq_refl eq_refl eq_refl).
Defined.

End EndToEnd.

(** ** Properties of the permission calls *)

Module PermissionsProperties.

Import Permissions.

(** X23: [checkRequestMicrophonePermission] first asks MiniKit for the
    permissions, and asks for the microphone, once, exactly when that call
    reports success with the microphone not granted; when the call reports
    an error or its promise rejects, nothing is asked for. *)
Theorem microphone_requested_only_when_not_granted (kit : MiniKit) :
  hd_error (checkRequestMicrophonePermission kit) = Some CallGetPermissions /\
  requested (checkRequestMicrophonePermission kit)
  = match getPermissions kit with
    | Normal (PermissionsSuccess false) => [Microphone]
    | _ => []
    end.
Proof.
  unfold checkRequestMicrophonePermission, requestMicrophonePermission.
  split; [reflexivity|].
  destruct (getPermissions kit) as [[[|]|]|e]; cbn; try reflexivity.
  destruct (requestPermission kit Microphone) as [[|]|e]; reflexivity.
Qed.

End PermissionsProperties.
